(** * Sick Beard: Synology VideoStation metadata provider

  A shallow embedding of [sickbeard/metadata/synology.py]
  (class [SynologyMetadata]) together with the properties of its
  episode-metadata path derivation, remote lookup and file writing.

  Conventions of the embedding
  - Python [str]/[unicode] values are [string]; [int]s are [Z].
  - [os.path] is the POSIX flavour ([posixpath]); the functions [join],
    [dirname] and [basename] below follow its text.
  - [ek.ek(f, args...)] (the host's encoding wrapper) is application of
    [f] to [args].
  - A [dict] is a [gmap]; assignment [d[k] = v] is [<[k:=v]> d].
  - Side effects (log lines, the remote lookup, file system calls) are
    threaded through a state-and-exception monad [M]; every effectful
    call also leaves an [Event] in the world's trace, in program order.
  - What the module only calls is a parameter of the development: the
    file system with [helpers.chmodAsParent] (class [FileSystem]),
    [json.dumps] (class [JsonEncoder]), the remote database behind
    [tvdb_api] and the global [sickbeard.TVDB_API_PARMS] (fields of the
    world). [logger.log] appends its line to the trace.
  - A field of a remote record or of an episode object that the module
    compares with [None] is an [option]. *)

From stdpp Require Import gmap strings list pretty.
From Stdlib Require Import ZArith Ascii String.

Set Warnings "-clear-no-such-hyp".

Local Open Scope string_scope.
Local Open Scope Z_scope.

(** ** Python built-ins used by the module *)

Module Py.

(** [s.startswith('/')] *)
Definition starts_with_slash (s : string) : bool :=
  match s with
  | String c _ => bool_decide (c = "/"%char)
  | EmptyString => false
  end.

(** [s.endswith('/')] *)
Fixpoint ends_with_slash (s : string) : bool :=
  match s with
  | EmptyString => false
  | String c EmptyString => bool_decide (c = "/"%char)
  | String _ r => ends_with_slash r
  end.

(** [s == '/' * len(s)] *)
Fixpoint all_slashes (s : string) : bool :=
  match s with
  | EmptyString => true
  | String c r => bool_decide (c = "/"%char) && all_slashes r
  end.

(** [s.rstrip('/')] *)
Fixpoint rstrip_slash (s : string) : string :=
  match s with
  | EmptyString => EmptyString
  | String c r =>
      match rstrip_slash r with
      | EmptyString =>
          if bool_decide (c = "/"%char) then EmptyString
          else String c EmptyString
      | r' => String c r'
      end
  end.

(** With [i = p.rfind('/') + 1]: [Some (p[:i], p[i:])] when [p] has a
    slash, [None] when it has none (then [i = 0]). *)
Fixpoint cut_last_slash (p : string) : option (string * string) :=
  match p with
  | EmptyString => None
  | String c r =>
      match cut_last_slash r with
      | Some (h, t) => Some (String c h, t)
      | None =>
          if bool_decide (c = "/"%char)
          then Some (String c EmptyString, r)
          else None
      end
  end.

(** [s.split(sep)] for a one-character separator: the pieces between
    the separators, empty pieces included; never the empty list. *)
Fixpoint split (sep : ascii) (s : string) : list string :=
  match s with
  | EmptyString => [EmptyString]
  | String c r =>
      if bool_decide (c = sep) then EmptyString :: split sep r
      else match split sep r with
           | piece :: pieces => String c piece :: pieces
           | [] => [String c EmptyString]
           end
  end.

(** [str(n)] for an [int]. *)
Definition str_int (n : Z) : string := pretty n.

(** [datetime.date]: the proleptic Gregorian triple the object stores. *)
Record date := mkdate { year : nat; month : nat; day : nat }.

#[global] Instance date_eq_dec : EqDecision date.
Proof. solve_decision. Defined.

(** [datetime.date.fromordinal(1)]: day one of year one. *)
Definition date_fromordinal_1 : date := mkdate 1 1 1.

(** ['%0*d' % (width, n)] for a natural number. *)
Definition zero_pad (width : nat) (n : nat) : string :=
  let digits := pretty n in
  String.concat "" (replicate (width - String.length digits)%nat "0")
    +:+ digits.

(** [str(d)] for a date, which is [d.isoformat()]: [YYYY-MM-DD]. *)
Definition str_date (d : date) : string :=
  zero_pad 4 (year d) +:+ "-" +:+ zero_pad 2 (month d) +:+ "-"
    +:+ zero_pad 2 (day d).

End Py.

(** ** [os.path] (POSIX) *)

Module os_path.

(** One round of the loop of [posixpath.join]. *)
Definition join_step (path b : string) : string :=
  if Py.starts_with_slash b then b
  else if bool_decide (path = "") || Py.ends_with_slash path
       then path +:+ b
       else path +:+ "/" +:+ b.

(** [os.path.join(a, *p)] *)
Definition join (a : string) (p : list string) : string :=
  fold_left join_step p a.

(** [os.path.split(p)] *)
Definition split (p : string) : string * string :=
  let '(head, tail) :=
    match Py.cut_last_slash p with
    | Some ht => ht
    | None => ("", p)
    end in
  let head :=
    if negb (bool_decide (head = "")) && negb (Py.all_slashes head)
    then Py.rstrip_slash head else head in
  (head, tail).

(** [os.path.dirname(p)] *)
Definition dirname (p : string) : string := fst (split p).

(** [os.path.basename(p)] *)
Definition basename (p : string) : string := snd (split p).

End os_path.

(** ** Values exchanged with the host *)

(** A value stored in the metadata mapping: a string or a list of
    strings (the results of [split('|')] and the one-element director
    list). *)
Inductive JVal :=
| JStr (s : string)
| JList (l : list string).

#[global] Instance JVal_eq_dec : EqDecision JVal.
Proof. solve_decision. Defined.

(** What [_ep_data] hands back: [None], [False] or the [dict]. *)
Inductive PyVal :=
| PNone
| PFalse
| PDict (d : gmap string JVal).

(** Python truth value, as tested by [if not data]. *)
Definition truthy (v : PyVal) : bool :=
  match v with
  | PNone => false
  | PFalse => false
  | PDict d => negb (bool_decide (d = ∅))
  end.

(** The result of a path getter seen as a Python object: [None] or a
    [str]. *)
Inductive PyPath :=
| PathNone
| PathStr (s : string).

(** [TVShow]: the attributes the module reads. *)
Record TVShow := mkTVShow {
  tvdbid : Z;
  lang : string
}.

(** [TVEpisode]: the attributes the module reads. *)
#[warnings="-register-all"]
Inductive TVEpisode := mkTVEpisode {
  location : string;
  season : Z;
  episode : Z;
  name : string;
  description : option string;
  airdate : Py.date;
  show : TVShow;
  relatedEps : list TVEpisode
}.

(** A remote episode record ([myEp]); an empty element of the remote
    answer is [None]. The record is taken to carry the four keys the
    module reads: what [myEp[...]] does for a key the remote answer
    lacks is decided inside [tvdb_api] and is not modelled. *)
Record Episode := mkEpisode {
  firstaired : option string;
  episodename : option string;
  writer : option string;
  director : option string
}.

(** A remote show ([myShow]): its own attributes, and its episodes by
    season number and episode number. As for the episode record, the
    three attributes the module reads are taken to be present, with
    [None] for an empty one. *)
Record Show := mkShow {
  seriesname : option string;
  actors : option string;
  genre : option string;
  seasons : gmap Z (gmap Z Episode)
}.

(** What the remote database answers to [Tvdb(...)[tvdbid]]. *)
Inductive TvdbReply :=
| reply_show (s : Show)
| reply_shownotfound (msg : string)
| reply_error (msg : string).

(** Exceptions; each carries [str(e)]. *)
Inductive Exn :=
| tvdb_shownotfound (msg : string)
| tvdb_error (msg : string)
| tvdb_seasonnotfound (msg : string)
| tvdb_episodenotfound (msg : string)
| ShowNotFoundException (msg : string)
| IOError (msg : string)
| OSError (msg : string).

(** [logger] levels. *)
Inductive LogLevel := ERROR | MESSAGE | DEBUG.

(** The calls that reach outside the interpreter, as they are made. *)
Inductive Event :=
| ELog (msg : string) (level : LogLevel)
| ETvdb (parms : gmap string string) (id : Z)
| EMakedirs (path : string)
| EChmodAsParent (path : string)
| EOpen (path : string) (mode : string)
| EWrite (path : string) (text : string)
| EClose (path : string).

(** Does the event ask the file system to change something? *)
Definition fs_event (e : Event) : bool :=
  match e with
  | ELog _ _ | ETvdb _ _ => false
  | _ => true
  end.

(** The file system the host runs on. A mutating call returns the new
    file system and, when it fails, the message of the error it raises:
    [OSError] for [os.makedirs], [IOError] for [open], for writing to
    the open file and for closing it. [helpers.chmodAsParent] handles its
    own errors and only adjusts permission bits. *)
Class FileSystem (FS : Type) := {
  isfile : string → FS → bool;
  isdir : string → FS → bool;
  makedirs : string → FS → option string * FS;
  chmodAsParent : string → FS → FS;
  open_file : string → string → FS → option string * FS;
  write_file : string → string → FS → option string * FS;
  close_file : string → FS → option string * FS
}.

(** [json.dumps] on the metadata mapping. *)
Class JsonEncoder := json_dumps : gmap string JVal → string.

(** [json.dumps] on what [_ep_data] may return. *)
Definition json_dumps_val `{JsonEncoder} (v : PyVal) : string :=
  match v with
  | PNone => "null"
  | PFalse => "false"
  | PDict d => json_dumps d
  end.

(** ** The effect monad *)

Inductive Outcome (A : Type) :=
| Ret (a : A)
| Raise (e : Exn).
Arguments Ret {A} a.
Arguments Raise {A} e.

(** Either the enclosing function has executed a [return], or control
    goes on with a value. *)
Inductive Flow (R A : Type) :=
| Returned (r : R)
| Normal (a : A).
Arguments Returned {R A} r.
Arguments Normal {R A} a.

Section Embedding.
Context {FS : Type} `{!FileSystem FS} `{!JsonEncoder}.

(** The world a call runs in: the file system, the global
    [sickbeard.TVDB_API_PARMS], the remote database, and the trace of
    events so far (oldest first). *)
Record World := mkWorld {
  fs : FS;
  TVDB_API_PARMS : gmap string string;
  tvdb : gmap string string → Z → TvdbReply;
  trace : list Event
}.

Definition M (A : Type) : Type := World → Outcome A * World.

Definition ret {A} (a : A) : M A := λ w, (Ret a, w).

Definition raise {A} (e : Exn) : M A := λ w, (Raise e, w).

Definition bind {A B} (m : M A) (k : A → M B) : M B :=
  λ w, match m w with
       | (Ret a, w') => k a w'
       | (Raise e, w') => (Raise e, w')
       end.

(** [try: body / except <classes handled by h>: h e]; an exception for
    which [handler] has no clause goes on up. *)
Definition try_except {A} (body : M A) (handler : Exn → option (M A)) : M A :=
  λ w, match body w with
       | (Ret a, w') => (Ret a, w')
       | (Raise e, w') =>
           match handler e with
           | Some h => h w'
           | None => (Raise e, w')
           end
       end.

(** The world after the events [t] have happened in it. *)
Definition record_events (t : list Event) (w : World) : World :=
  mkWorld (fs w) (TVDB_API_PARMS w) (tvdb w) (trace w ++ t).

Definition emit (e : Event) : M unit :=
  λ w, (Ret tt, record_events [e] w).

Definition set_fs (f : FS) : M unit :=
  λ w, (Ret tt, mkWorld f (TVDB_API_PARMS w) (tvdb w) (trace w)).

Definition gets {A} (f : World → A) : M A := λ w, (Ret (f w), w).

End Embedding.

Arguments World FS : clear implicits.
Arguments M FS A : clear implicits.
Arguments record_events {FS} t w.

Notation "x <~ m ;; k" := (bind m (λ x, k))
  (at level 100, m at next level, right associativity,
   format "'[v' x  <~  m  ;;  '/' k ']'").
Notation "m ;;; k" := (bind m (λ _, k))
  (at level 100, right associativity,
   format "'[v' m  ;;;  '/' k ']'").

(** ** Calls to the collaborators *)

Section Synology.
Context {FS : Type} `{!FileSystem FS} `{!JsonEncoder}.

(** [logger.log(msg, level)] *)
Definition logger_log (msg : string) (level : LogLevel) : M FS unit :=
  emit (ELog msg level).

(** [os.path.isfile(p)] *)
Definition os_path_isfile (p : string) : M FS bool :=
  gets (λ w, isfile p (fs w)).

(** [os.path.isdir(p)] *)
Definition os_path_isdir (p : string) : M FS bool :=
  gets (λ w, isdir p (fs w)).

(** Run a mutating file system call [op]: record the event, install
    the file system it leaves, raise [err msg] when it failed. *)
Definition fs_call (e : Event) (op : FS → option string * FS)
    (err : string → Exn) : M FS unit :=
  emit e ;;;
  f <~ gets fs ;;
  let '(failure, f') := op f in
  set_fs f' ;;;
  match failure with
  | Some msg => raise (err msg)
  | None => ret tt
  end.

(** [os.makedirs(p)] *)
Definition os_makedirs (p : string) : M FS unit :=
  fs_call (EMakedirs p) (makedirs p) OSError.

(** [helpers.chmodAsParent(p)] *)
Definition helpers_chmodAsParent (p : string) : M FS unit :=
  emit (EChmodAsParent p) ;;;
  f <~ gets fs ;;
  set_fs (chmodAsParent p f).

(** [open(p, mode)]; the file object is known by its path. *)
Definition open (p mode : string) : M FS string :=
  fs_call (EOpen p mode) (open_file p mode) IOError ;;;
  ret p.

(** [json.dump(data, f)] *)
Definition json_dump (data : PyVal) (f : string) : M FS unit :=
  let text := json_dumps_val data in
  fs_call (EWrite f text) (write_file f text) IOError.

(** [f.close()] *)
Definition close (f : string) : M FS unit :=
  fs_call (EClose f) (close_file f) IOError.

(** [tvdb_api.Tvdb(actors=True, **parms)[id]] *)
Definition Tvdb_getitem (parms : gmap string string) (id : Z) : M FS Show :=
  emit (ETvdb parms id) ;;;
  reply <~ gets (λ w, tvdb w parms id) ;;
  match reply with
  | reply_show s => ret s
  | reply_shownotfound msg => raise (tvdb_shownotfound msg)
  | reply_error msg => raise (tvdb_error msg)
  end.

(** [myShow[s][e]] *)
Definition Show_getitem (myShow : Show) (s e : Z) : M FS Episode :=
  match seasons myShow !! s with
  | None => raise (tvdb_seasonnotfound (Py.str_int s))
  | Some eps =>
      match eps !! e with
      | None => raise (tvdb_episodenotfound (Py.str_int e))
      | Some myEp => ret myEp
      end
  end.

(** [myShow[s][e]["firstaired"] = v]: the record lives in the show, so
    a later [myShow[s][e]] sees the assignment. *)
Definition set_firstaired (myShow : Show) (s e : Z) (v : option string) : Show :=
  mkShow (seriesname myShow) (actors myShow) (genre myShow)
    (alter (alter (λ myEp, mkEpisode v (episodename myEp) (writer myEp)
                             (director myEp)) e) s (seasons myShow)).

(** ** [SynologyMetadata] *)

(** [get_episode_thumb_path(self, ep_obj)] *)
Definition get_episode_thumb_path (ep_obj : TVEpisode) : M FS PyPath :=
  is_file <~ os_path_isfile (location ep_obj) ;;
  if is_file then
    let tbn_filename := "SYNOVIDEO_VIDEO_SCREENSHOT.jpg" in
    let tbn_dir_name :=
      os_path.join (os_path.dirname (location ep_obj))
        ["@eaDir"; os_path.basename (location ep_obj)] in
    let tbn_filepath := os_path.join tbn_dir_name [tbn_filename] in
    ret (PathStr tbn_filepath)
  else
    ret PathNone.

(** [get_episode_file_path(self, ep_obj)] *)
Definition get_episode_file_path (ep_obj : TVEpisode) : M FS PyPath :=
  is_file <~ os_path_isfile (location ep_obj) ;;
  if is_file then
    let metadata_file_name := "SYNOVIDEO_TV_EPISODE" in
    let metadata_dir_name :=
      os_path.join (os_path.dirname (location ep_obj))
        ["@eaDir"; os_path.basename (location ep_obj)] in
    let metadata_file_path :=
      os_path.join metadata_dir_name [metadata_file_name] in
    ret (PathStr metadata_file_path)
  else
    logger_log ("Episode location doesn't exist: " +:+ location ep_obj) DEBUG ;;;
    ret (PathStr "").

(** The body of [for curEpToWrite in eps_to_write] in [_ep_data], run
    on the show and the mapping as the previous rounds left them. *)
Definition _ep_data_body (ep_obj curEpToWrite : TVEpisode)
    (myShow : Show) (data : gmap string JVal)
    : M FS (Flow PyVal (Show * gmap string JVal)) :=
  found <~ try_except
      (myEp <~ Show_getitem myShow (season curEpToWrite) (episode curEpToWrite) ;;
       ret (Normal myEp))
      (λ e, match e with
            | tvdb_episodenotfound _ | tvdb_seasonnotfound _ =>
                Some (logger_log
                        ("Unable to find episode "
                           +:+ Py.str_int (season curEpToWrite) +:+ "x"
                           +:+ Py.str_int (episode curEpToWrite)
                           +:+ " on tvdb... has it been removed? Should I delete from db?")
                        MESSAGE ;;;
                      ret (Returned PNone))
            | _ => None
            end) ;;
  match found with
  | Returned r => ret (Returned r)
  | Normal myEp =>
      let '(myShow, myEp) :=
        if bool_decide (firstaired myEp = None)
           && bool_decide (season ep_obj = 0)
        then
          let v := Some (Py.str_date Py.date_fromordinal_1) in
          (set_firstaired myShow (season curEpToWrite) (episode curEpToWrite) v,
           mkEpisode v (episodename myEp) (writer myEp) (director myEp))
        else (myShow, myEp) in
      if bool_decide (episodename myEp = None)
         || bool_decide (firstaired myEp = None)
      then ret (Returned PNone)
      else
        let data :=
          match seriesname myShow with
          | Some title => <["title" := JStr title]> data
          | None => data
          end in
        let data := <["tagline" := JStr (name curEpToWrite)]> data in
        let data := <["season" := JStr (Py.str_int (season curEpToWrite))]> data in
        let data := <["episode" := JStr (Py.str_int (episode curEpToWrite))]> data in
        let data :=
          match description curEpToWrite with
          | Some text => <["summary" := JStr text]> data
          | None => data
          end in
        let data :=
          if bool_decide (airdate curEpToWrite ≠ Py.date_fromordinal_1)
          then <["original_available" :=
                   JStr (Py.str_date (airdate curEpToWrite))]> data
          else data in
        let data :=
          match writer myEp with
          | Some w => <["writer" := JList (Py.split "|" w)]> data
          | None => data
          end in
        let data :=
          match director myEp with
          | Some d => <["director" := JList [d]]> data
          | None => data
          end in
        let data :=
          match actors myShow with
          | Some a => <["actor" := JList (Py.split "|" a)]> data
          | None => data
          end in
        let data :=
          match genre myShow with
          | Some g => <["genre" := JList (Py.split "|" g)]> data
          | None => data
          end in
        ret (Normal (myShow, data))
  end.

(** [for curEpToWrite in eps_to_write: ...] followed by [return data]. *)
Fixpoint _ep_data_loop (ep_obj : TVEpisode) (eps_to_write : list TVEpisode)
    (myShow : Show) (data : gmap string JVal) : M FS PyVal :=
  match eps_to_write with
  | [] => ret (PDict data)
  | curEpToWrite :: rest =>
      round <~ _ep_data_body ep_obj curEpToWrite myShow data ;;
      match round with
      | Returned r => ret r
      | Normal (myShow, data) => _ep_data_loop ep_obj rest myShow data
      end
  end.

(** [eps_to_write = [ep_obj] + ep_obj.relatedEps] *)
Definition eps_to_write (ep_obj : TVEpisode) : list TVEpisode :=
  ([ep_obj] ++ relatedEps ep_obj)%list.

(** The copy of [TVDB_API_PARMS] with which [_ep_data] opens the remote
    database: the language is set when the show has one other than
    ['en']. *)
Definition ltvdb_api_parms (TVDB_API_PARMS : gmap string string)
    (tvdb_lang : string) : gmap string string :=
  if negb (bool_decide (tvdb_lang = ""))
     && negb (bool_decide (tvdb_lang = "en"))
  then <["language" := tvdb_lang]> TVDB_API_PARMS
  else TVDB_API_PARMS.

(** [_ep_data(self, ep_obj)] *)
Definition _ep_data (ep_obj : TVEpisode) : M FS PyVal :=
  let data : gmap string JVal := ∅ in
  let eps_to_write := eps_to_write ep_obj in
  let tvdb_lang := lang (show ep_obj) in
  looked_up <~ try_except
      (TVDB_API_PARMS <~ gets TVDB_API_PARMS ;;
       let ltvdb_api_parms := ltvdb_api_parms TVDB_API_PARMS tvdb_lang in
       myShow <~ Tvdb_getitem ltvdb_api_parms (tvdbid (show ep_obj)) ;;
       ret (Normal myShow))
      (λ e, match e with
            | tvdb_shownotfound msg => Some (raise (ShowNotFoundException msg))
            | tvdb_error msg =>
                Some (logger_log
                        ("Unable to connect to TVDB while creating meta files - skipping - "
                           +:+ msg) ERROR ;;;
                      ret (Returned PFalse))
            | _ => None
            end) ;;
  match looked_up with
  | Returned r => ret r
  | Normal myShow => _ep_data_loop ep_obj eps_to_write myShow data
  end.

(** The [try] block of [write_ep_file]. *)
Definition write_ep_file_try (data : PyVal)
    (nfo_file_path nfo_file_dir meta_file_dir : string) : M FS unit :=
  meta_is_dir <~ os_path_isdir meta_file_dir ;;
  (if negb meta_is_dir then
     logger_log ("Metadata dir didn't exist, creating it at " +:+ meta_file_dir)
       DEBUG ;;;
     os_makedirs meta_file_dir ;;;
     helpers_chmodAsParent meta_file_dir
   else ret tt) ;;;
  nfo_is_dir <~ os_path_isdir nfo_file_dir ;;
  (if negb nfo_is_dir then
     logger_log ("Metadata dir didn't exist, creating it at " +:+ nfo_file_dir)
       DEBUG ;;;
     os_makedirs nfo_file_dir ;;;
     helpers_chmodAsParent nfo_file_dir
   else ret tt) ;;;
  logger_log ("Writing episode metadata file to " +:+ nfo_file_path) MESSAGE ;;;
  nfo_file <~ open nfo_file_path "w" ;;
  json_dump data nfo_file ;;;
  close nfo_file ;;;
  helpers_chmodAsParent nfo_file_path.

(** The path a getter returned, used as a [str]. [get_episode_file_path]
    only returns strings. *)
Definition path_str (p : PyPath) : string :=
  match p with
  | PathStr s => s
  | PathNone => ""
  end.

(** [write_ep_file(self, ep_obj)] *)
Definition write_ep_file (ep_obj : TVEpisode) : M FS bool :=
  data <~ _ep_data ep_obj ;;
  if negb (truthy data) then ret false
  else
    nfo_file_path <~ get_episode_file_path ep_obj ;;
    let nfo_file_path := path_str nfo_file_path in
    let nfo_file_dir := os_path.dirname nfo_file_path in
    let meta_file_dir := os_path.dirname nfo_file_dir in
    written <~ try_except
        (write_ep_file_try data nfo_file_path nfo_file_dir meta_file_dir ;;;
         ret (Normal tt))
        (λ e, match e with
              | IOError msg =>
                  Some (logger_log
                          ("Unable to write file to " +:+ nfo_file_path
                             +:+ " - are you sure the folder is writable? "
                             +:+ msg) ERROR ;;;
                        ret (Returned false))
              | _ => None
              end) ;;
    match written with
    | Returned r => ret r
    | Normal _ => ret true
    end.

End Synology.

(** ** Vocabulary of the properties *)

(** The remote record of episode [e] of season [s], when the show has
    one. *)
Definition lookup_ep (myShow : Show) (s e : Z) : option Episode :=
  seasons myShow !! s ≫= λ eps, eps !! e.

(** The remote show has nothing usable for [cur]: no record, or a record
    without a name, or a record without an air date while the primary
    episode [ep_obj] is not a special. *)
Definition unusable (ep_obj : TVEpisode) (myShow : Show) (cur : TVEpisode) : bool :=
  match lookup_ep myShow (season cur) (episode cur) with
  | None => true
  | Some myEp =>
      bool_decide (episodename myEp = None)
      || (bool_decide (firstaired myEp = None)
          && negb (bool_decide (season ep_obj = 0)))
  end.

(** The value of [myEp["firstaired"]] when the required fields are
    checked, that is after the substitution made for specials. *)
Definition checked_firstaired (ep_obj : TVEpisode) (myEp : Episode)
    : option string :=
  if bool_decide (firstaired myEp = None) && bool_decide (season ep_obj = 0)
  then Some (Py.str_date Py.date_fromordinal_1)
  else firstaired myEp.

(** What the remote database answers when [_ep_data] asks for the show
    of [ep_obj] in world [w]. *)
Definition remote_reply {FS} (w : World FS) (ep_obj : TVEpisode) : TvdbReply :=
  tvdb w (ltvdb_api_parms (TVDB_API_PARMS w) (lang (show ep_obj)))
    (tvdbid (show ep_obj)).

(** The writer and the director in the remote record of [cur]. *)
Definition remote_writer (myShow : Show) (cur : TVEpisode) : option string :=
  lookup_ep myShow (season cur) (episode cur) ≫= writer.

Definition remote_director (myShow : Show) (cur : TVEpisode) : option string :=
  lookup_ep myShow (season cur) (episode cur) ≫= director.

(** Entry [k ↦ v] of the mapping is taken from the remote answer: from
    the show, or from the remote record of episode [cur]. *)
Definition from_remote (myShow : Show) (cur : TVEpisode) (k : string)
    (v : JVal) : Prop :=
  (k = "title" ∧ JStr <$> seriesname myShow = Some v)
  ∨ (k = "writer"
     ∧ (λ w, JList (Py.split "|" w)) <$> remote_writer myShow cur = Some v)
  ∨ (k = "director" ∧ (λ d, JList [d]) <$> remote_director myShow cur = Some v)
  ∨ (k = "actor" ∧ (λ a, JList (Py.split "|" a)) <$> actors myShow = Some v)
  ∨ (k = "genre" ∧ (λ g, JList (Py.split "|" g)) <$> genre myShow = Some v).

(** Entry [k ↦ v] of the mapping is taken from the episode object
    [cur] itself. *)
Definition from_episode_object (cur : TVEpisode) (k : string) (v : JVal) : Prop :=
  (k = "tagline" ∧ v = JStr (name cur))
  ∨ (k = "season" ∧ v = JStr (Py.str_int (season cur)))
  ∨ (k = "episode" ∧ v = JStr (Py.str_int (episode cur)))
  ∨ (k = "summary" ∧ JStr <$> description cur = Some v)
  ∨ (k = "original_available"
     ∧ airdate cur ≠ Py.date_fromordinal_1
     ∧ v = JStr (Py.str_date (airdate cur))).

(** The keys a metadata mapping may have. *)
Definition metadata_keys : gset string :=
  {[ "title"; "tagline"; "season"; "episode"; "summary";
     "original_available"; "writer"; "director"; "actor"; "genre" ]}.

(** The description of the last episode of [eps] that has one, starting
    from [acc]. *)
Definition last_described (acc : option string) (eps : list TVEpisode)
    : option string :=
  fold_left (λ acc cur, match description cur with
                        | Some text => Some text
                        | None => acc
                        end) eps acc.

Definition is_tvdb_event (e : Event) : bool :=
  match e with ETvdb _ _ => true | _ => false end.

Definition is_open_event (e : Event) : bool :=
  match e with EOpen _ _ => true | _ => false end.

Definition is_write_event (e : Event) : bool :=
  match e with EWrite _ _ => true | _ => false end.

(** How many events of [t] satisfy [p]. *)
Definition count_events (p : Event → bool) (t : list Event) : nat :=
  List.length (filter (λ e, p e = true) t).

(** ** A file system in memory and a plain encoder

    One instance of each interface, on which the methods above run to a
    value: regular files with their text, directories, and a set of
    paths the operating system refuses to create or open for writing. *)

Module MemFS.

Record t := mk {
  files : gmap string string;
  dirs : gset string;
  refused : gset string
}.

(** The directories above [p], nearest first. *)
Fixpoint ancestors (fuel : nat) (p : string) : list string :=
  match fuel with
  | O => []
  | S fuel =>
      let d := os_path.dirname p in
      if bool_decide (d = "") || bool_decide (d = p) then []
      else d :: ancestors fuel d
  end.

Definition exists_ (p : string) (f : t) : bool :=
  bool_decide (p ∈ dirs f) || bool_decide (is_Some (files f !! p)).

Definition mkdirs (p : string) (f : t) : option string * t :=
  if bool_decide (p = "") || exists_ p f || bool_decide (p ∈ refused f)
  then (Some ("[Errno 13] cannot create directory: " +:+ p), f)
  else (None,
        mk (files f)
           (list_to_set (p :: ancestors (String.length p) p) ∪ dirs f)
           (refused f)).

Definition open_ (p mode : string) (f : t) : option string * t :=
  let d := os_path.dirname p in
  if bool_decide (p ∈ refused f) || bool_decide (p ∈ dirs f)
     || negb (bool_decide (d = "") || bool_decide (d ∈ dirs f))
  then (Some ("[Errno 13] cannot open: " +:+ p), f)
  else (None, mk (<[p := ""]> (files f)) (dirs f) (refused f)).

Definition write_ (p text : string) (f : t) : option string * t :=
  (None, mk (<[p := default "" (files f !! p) +:+ text]> (files f))
            (dirs f) (refused f)).

#[global] Instance file_system : FileSystem t := {|
  isfile p f := bool_decide (is_Some (files f !! p));
  isdir p f := bool_decide (p ∈ dirs f);
  makedirs := mkdirs;
  chmodAsParent _ f := f;
  open_file := open_;
  write_file := write_;
  close_file _ f := (None, f)
|}.

End MemFS.

Module PlainJson.

Definition quote (s : string) : string :=
  String (ascii_of_nat 34) (s +:+ String (ascii_of_nat 34) "").

Definition value (v : JVal) : string :=
  match v with
  | JStr s => quote s
  | JList l => "[" +:+ String.concat ", " (quote <$> l) +:+ "]"
  end.

Definition member (kv : string * JVal) : string :=
  quote kv.1 +:+ ": " +:+ value kv.2.

(** The object with its members in the order [map_to_list] gives; no
    character is escaped. *)
#[global] Instance encoder : JsonEncoder :=
  λ d, "{" +:+ String.concat ", " (member <$> map_to_list d) +:+ "}".

End PlainJson.

(** A library with one show, used to run the methods. *)
Module Sample.

Definition video : string := "/tv/S1/ep.mkv".

Definition the_show : TVShow := mkTVShow 42 "de".

Definition ep (s e : Z) (title : string) (text : option string) : TVEpisode :=
  mkTVEpisode video s e title text (Py.mkdate 2011 3 9) the_show [].

Definition double_ep (first second : TVEpisode) : TVEpisode :=
  mkTVEpisode (location first) (season first) (episode first) (name first)
    (description first) (airdate first) (show first) [second].

Definition aired : Episode :=
  mkEpisode (Some "2011-03-09") (Some "Pilot") (Some "Ann|Bob") (Some "Cy").

Definition unnamed : Episode :=
  mkEpisode (Some "2011-03-16") None None None.

Definition undated : Episode :=
  mkEpisode None (Some "Extra") None None.

Definition remote_show : Show :=
  mkShow (Some "Show") (Some "|Dee|Eli|") (Some "Drama")
    {[ 0 := {[ 1 := undated ]};
       1 := {[ 1 := aired; 2 := unnamed; 3 := undated; 4 := aired ]} ]}.

Definition parms : gmap string string := {[ "apikey" := "0123" ]}.

(** The remote database: show 42 in German, show 7 unknown, anything
    else unreachable. *)
Definition remote (p : gmap string string) (id : Z) : TvdbReply :=
  if bool_decide (id = 42) && bool_decide (p !! "language" = Some "de")
  then reply_show remote_show
  else if bool_decide (id = 7) then reply_shownotfound "7"
  else reply_error "timed out".

Definition disk : MemFS.t :=
  MemFS.mk {[ video := "video" ]}
    {[ "/"; "/tv"; "/tv/S1" ]} ∅.

(** The same disk with the metadata file write-protected. *)
Definition locked_disk : MemFS.t :=
  MemFS.mk (MemFS.files disk)
    ({[ "/tv/S1/@eaDir"; "/tv/S1/@eaDir/ep.mkv" ]} ∪ MemFS.dirs disk)
    {[ "/tv/S1/@eaDir/ep.mkv/SYNOVIDEO_TV_EPISODE" ]}.

Definition world (f : MemFS.t) : World MemFS.t := mkWorld f parms remote [].

(** Episodes of the library. *)
Definition pilot : TVEpisode := ep 1 1 "Pilot" (Some "It begins.").

(** The pilot again, with another description in the local database. *)
Definition retold : TVEpisode := ep 1 1 "Pilot" (Some "Told anew.").

Definition second : TVEpisode := ep 1 2 "Second" (Some "It goes on.").

Definition third : TVEpisode := ep 1 3 "Third" None.

Definition fourth : TVEpisode := ep 1 4 "Fourth" None.

Definition ninth : TVEpisode := ep 1 9 "Ninth" None.

Definition special : TVEpisode := ep 0 1 "Extra" None.

(** A file holding episodes one and four. *)
Definition two_parter : TVEpisode := double_ep pilot fourth.

(** A special whose file also holds the undated third episode, and the
    other way round. *)
Definition special_and_third : TVEpisode := double_ep special third.

Definition third_and_special : TVEpisode := double_ep third special.

(** An episode whose file is gone. *)
Definition lost : TVEpisode :=
  mkTVEpisode "/tv/S1/gone.mkv" 1 1 "Pilot" None
    (Py.mkdate 2011 3 9) the_show [].

(** Episodes of shows the remote database does not know, or cannot be
    asked about. *)
Definition unknown : TVEpisode :=
  mkTVEpisode video 1 1 "Pilot" None (Py.mkdate 2011 3 9) (mkTVShow 7 "en") [].

Definition offline : TVEpisode :=
  mkTVEpisode video 1 1 "Pilot" None (Py.mkdate 2011 3 9) (mkTVShow 8 "") [].

(** What a run returned, when it returned a mapping. *)
Definition dict_of (r : Outcome PyVal) : gmap string JVal :=
  match r with
  | Ret (PDict d) => d
  | _ => ∅
  end.

End Sample.

(** ** Further vocabulary *)

(** [not ('/' in s)] *)
Fixpoint no_slash (s : string) : bool :=
  match s with
  | EmptyString => true
  | String c r => negb (bool_decide (c = "/"%char)) && no_slash r
  end.

(** [not (sep in s)] for a one-character [sep]. *)
Fixpoint no_char (sep : ascii) (s : string) : bool :=
  match s with
  | EmptyString => true
  | String c r => negb (bool_decide (c = sep)) && no_char sep r
  end.



Definition is_close_event (e : Event) : bool :=
  match e with EClose _ => true | _ => false end.


(** What is logged and called to create the directory [dir]. *)
Definition creation_events (dir : string) : list Event :=
  [ELog ("Metadata dir didn't exist, creating it at " +:+ dir) DEBUG;
   EMakedirs dir;
   EChmodAsParent dir].

(** What is logged and called to write [text] to the file [path]. *)
Definition writing_events (path text : string) : list Event :=
  [ELog ("Writing episode metadata file to " +:+ path) MESSAGE;
   EOpen path "w";
   EWrite path text;
   EClose path;
   EChmodAsParent path].

(** What the round of the loop for [cur] assigns to [data[k]], if it
    assigns anything. *)
Definition assigned (myShow : Show) (cur : TVEpisode) (k : string)
    : option JVal :=
  if decide (k = "title") then JStr <$> seriesname myShow
  else if decide (k = "tagline") then Some (JStr (name cur))
  else if decide (k = "season") then Some (JStr (Py.str_int (season cur)))
  else if decide (k = "episode") then Some (JStr (Py.str_int (episode cur)))
  else if decide (k = "summary") then JStr <$> description cur
  else if decide (k = "original_available") then
    if bool_decide (airdate cur ≠ Py.date_fromordinal_1)
    then Some (JStr (Py.str_date (airdate cur)))
    else None
  else if decide (k = "writer") then
    (λ w, JList (Py.split "|" w)) <$> remote_writer myShow cur
  else if decide (k = "director") then
    (λ d, JList [d]) <$> remote_director myShow cur
  else if decide (k = "actor") then
    (λ a, JList (Py.split "|" a)) <$> actors myShow
  else if decide (k = "genre") then
    (λ g, JList (Py.split "|" g)) <$> genre myShow
  else None.

(** [data[k]] after the rounds for [eps], starting from [acc]: the last
    assignment made, if any. *)
Definition last_assigned (myShow : Show) (k : string) (acc : option JVal)
    (eps : list TVEpisode) : option JVal :=
  fold_left (λ acc cur, match assigned myShow cur k with
                        | Some v => Some v
                        | None => acc
                        end) eps acc.

(** What [write_ep_file] makes of the end of its [try] block: [True]
    after a normal end, a log line and [False] after an [IOError]; any
    other exception goes on to the caller. *)
Definition after_try {FS} (nfo_file_path : string)
    (r : Outcome unit * World FS) : Outcome bool * World FS :=
  match r with
  | (Ret _, w) => (Ret true, w)
  | (Raise (IOError msg), w) =>
      (Ret false,
       record_events
         [ELog ("Unable to write file to " +:+ nfo_file_path
                  +:+ " - are you sure the folder is writable? " +:+ msg)
            ERROR] w)
  | (Raise e, w) => (Raise e, w)
  end.

(** The string [get_episode_file_path] returns for [ep_obj] in [w]. *)
Definition metadata_path {FS} `{!FileSystem FS} (ep_obj : TVEpisode)
    (w : World FS) : string :=
  match (get_episode_file_path ep_obj w).1 with
  | Ret p => path_str p
  | Raise _ => ""
  end.

(** The calls that create [dir] when [isdir] denies it in [f]. *)
Definition creation_steps {FS} `{!FileSystem FS} (dir : string) (f : FS)
    : list Event :=
  if isdir dir f then [] else creation_events dir.

(** The file system they leave when [makedirs] succeeds. *)
Definition created {FS} `{!FileSystem FS} (dir : string) (f : FS) : FS :=
  if isdir dir f then f else chmodAsParent dir (makedirs dir f).2.

(** The calls of a run of the [try] block of [write_ep_file] that
    reaches its end, started in the file system [f]. *)
Definition try_block_steps {FS} `{!FileSystem FS} `{!JsonEncoder}
    (data : PyVal) (nfo_file_path nfo_file_dir meta_file_dir : string) (f : FS)
    : list Event :=
  (creation_steps meta_file_dir f
   ++ creation_steps nfo_file_dir (created meta_file_dir f)
   ++ writing_events nfo_file_path (json_dumps_val data))%list.

(** The file system after [open(path, 'w')], the write of [text],
    [close] and [chmodAsParent], when none of them fails. *)
Definition written {FS} `{!FileSystem FS} (path text : string) (f : FS) : FS :=
  chmodAsParent path
    (close_file path (write_file path text (open_file path "w" f).2).2).2.

(** More of the sample library: a disk on which the [@eaDir] directory
    cannot be created, and the pieces of a run of the [try] block. *)
Module MoreSamples.

Definition sealed_disk : MemFS.t :=
  MemFS.mk (MemFS.files Sample.disk) (MemFS.dirs Sample.disk) {[ "/tv/S1/@eaDir" ]}.

Definition meta_file : string := "/tv/S1/@eaDir/ep.mkv/SYNOVIDEO_TV_EPISODE".

Definition episode_dir : string := "/tv/S1/@eaDir/ep.mkv".

Definition eaDir : string := "/tv/S1/@eaDir".

Definition small : PyVal := PDict {[ "tagline" := JStr "Pilot" ]}.

End MoreSamples.

(** * Properties *)

(** ** Paths *)

Lemma join_app (a : string) (p q : list string) :
  os_path.join (os_path.join a p) q = os_path.join a (p ++ q).
Proof. unfold os_path.join. by rewrite fold_left_app. Qed.

Section Paths.
Context {FS : Type} `{!FileSystem FS}.

(** C2. When the episode's location is an existing file,
    [get_episode_file_path] returns the join of the location's
    directory, ['@eaDir'], the location's base name and
    ['SYNOVIDEO_TV_EPISODE'], leaving the world as it was; any episode
    with the same location, in any world where that location is a file,
    gets the same path. *)
Theorem get_episode_file_path_of_location (ep_obj : TVEpisode) (w : World FS) :
  isfile (location ep_obj) (fs w) = true →
  get_episode_file_path ep_obj w
  = (Ret (PathStr
            (os_path.join (os_path.dirname (location ep_obj))
               ["@eaDir"; os_path.basename (location ep_obj);
                "SYNOVIDEO_TV_EPISODE"])), w)
  ∧ ∀ (ep_obj' : TVEpisode) (w' : World FS),
      location ep_obj' = location ep_obj →
      isfile (location ep_obj') (fs w') = true →
      (get_episode_file_path ep_obj' w').1 = (get_episode_file_path ep_obj w).1.
Proof.
  intros Hfile.
  assert (∀ e (v : World FS), isfile (location e) (fs v) = true →
            get_episode_file_path e v
            = (Ret (PathStr
                      (os_path.join (os_path.dirname (location e))
                         ["@eaDir"; os_path.basename (location e);
                          "SYNOVIDEO_TV_EPISODE"])), v)) as Hpath.
  { intros e v He.
    unfold get_episode_file_path, bind, os_path_isfile, gets, ret.
    rewrite He. by rewrite join_app. }
  split; [by apply Hpath|].
  intros ep_obj' w' Hloc Hfile'.
  rewrite (Hpath _ _ Hfile), (Hpath _ _ Hfile'). simpl. by rewrite Hloc.
Qed.

(** C3. When the episode's location is an existing file,
    [get_episode_thumb_path] returns the join of the location's
    directory, ['@eaDir'], the location's base name and
    ['SYNOVIDEO_VIDEO_SCREENSHOT.jpg']: the directory part is the one of
    the metadata file path, the file name differs. *)
Theorem get_episode_thumb_path_of_location (ep_obj : TVEpisode) (w : World FS) :
  isfile (location ep_obj) (fs w) = true →
  get_episode_thumb_path ep_obj w
  = (Ret (PathStr
            (os_path.join (os_path.dirname (location ep_obj))
               ["@eaDir"; os_path.basename (location ep_obj);
                "SYNOVIDEO_VIDEO_SCREENSHOT.jpg"])), w)
  ∧ ∃ dir_name,
      get_episode_thumb_path ep_obj w
      = (Ret (PathStr (os_path.join dir_name ["SYNOVIDEO_VIDEO_SCREENSHOT.jpg"])), w)
      ∧ get_episode_file_path ep_obj w
        = (Ret (PathStr (os_path.join dir_name ["SYNOVIDEO_TV_EPISODE"])), w).
Proof.
  intros Hfile.
  unfold get_episode_thumb_path, get_episode_file_path, bind, os_path_isfile,
    gets, ret.
  rewrite Hfile. split; [by rewrite join_app|].
  by eexists.
Qed.

(** C8. When the episode's location is not an existing file, the thumb
    path getter returns [None] and the metadata path getter returns the
    empty string (after a debug log line): two different values. *)
Theorem missing_location_sentinels (ep_obj : TVEpisode) (w : World FS) :
  isfile (location ep_obj) (fs w) = false →
  get_episode_thumb_path ep_obj w = (Ret PathNone, w)
  ∧ get_episode_file_path ep_obj w
    = (Ret (PathStr ""),
       record_events
         [ELog ("Episode location doesn't exist: " +:+ location ep_obj) DEBUG] w)
  ∧ (get_episode_thumb_path ep_obj w).1 ≠ (get_episode_file_path ep_obj w).1.
Proof.
  intros Hfile.
  unfold get_episode_thumb_path, get_episode_file_path, bind, os_path_isfile,
    gets, ret, logger_log, emit.
  rewrite Hfile. by repeat split.
Qed.

End Paths.

(** ** The remote lookup *)

Lemma lookup_ep_set_firstaired (myShow : Show) (s e s' e' : Z) (v : option string) :
  lookup_ep (set_firstaired myShow s e v) s' e'
  = (λ myEp, if bool_decide (s = s' ∧ e = e')
             then mkEpisode v (episodename myEp) (writer myEp) (director myEp)
             else myEp) <$> lookup_ep myShow s' e'.
Proof.
  unfold lookup_ep, set_firstaired. simpl.
  rewrite lookup_alter. destruct (decide (s = s')) as [->|Hs].
  - destruct (seasons myShow !! s') as [eps|]; simpl; [|done].
    rewrite lookup_alter. destruct (decide (e = e')) as [->|He].
    + rewrite bool_decide_eq_true_2 by done. done.
    + rewrite bool_decide_eq_false_2 by (intros [_ ?]; done).
      by destruct (eps !! e').
  - rewrite bool_decide_eq_false_2 by (intros [? _]; done).
    destruct (seasons myShow !! s') as [eps|]; simpl; [|done].
    by destruct (eps !! e').
Qed.

(** Reading a mapping after an assignment guarded by [if x != None]
    or by a test. *)
Lemma lookup_guarded_insert_ne {A} (o : option A) (f : A → JVal)
    (k k' : string) (d : gmap string JVal) :
  k ≠ k' →
  match o with Some x => <[k := f x]> d | None => d end !! k' = d !! k'.
Proof. intros Hne. destruct o; [by rewrite lookup_insert_ne|done]. Qed.

Lemma lookup_tested_insert_ne (b : bool) (v : JVal) (k k' : string)
    (d : gmap string JVal) :
  k ≠ k' → (if b then <[k := v]> d else d) !! k' = d !! k'.
Proof. intros Hne. destruct b; [by rewrite lookup_insert_ne|done]. Qed.

Lemma dom_guarded_insert {A} (o : option A) (f : A → JVal) (k : string)
    (d : gmap string JVal) (K : gset string) :
  k ∈ K → dom d ⊆ K →
  dom (match o with Some x => <[k := f x]> d | None => d end) ⊆ K.
Proof. intros Hk Hd. destruct o; [rewrite dom_insert_L; set_solver|done]. Qed.

Lemma dom_tested_insert (b : bool) (v : JVal) (k : string)
    (d : gmap string JVal) (K : gset string) :
  k ∈ K → dom d ⊆ K → dom (if b then <[k := v]> d else d) ⊆ K.
Proof. intros Hk Hd. destruct b; [rewrite dom_insert_L; set_solver|done]. Qed.

Lemma dom_plain_insert (v : JVal) (k : string) (d : gmap string JVal)
    (K : gset string) :
  k ∈ K → dom d ⊆ K → dom (<[k := v]> d) ⊆ K.
Proof. intros Hk Hd. rewrite dom_insert_L. set_solver. Qed.

Lemma lookup_guarded_insert_Some {A} (o : option A) (f : A → JVal)
    (k0 k : string) (d : gmap string JVal) (v : JVal) :
  match o with Some x => <[k0 := f x]> d | None => d end !! k = Some v →
  (k = k0 ∧ f <$> o = Some v) ∨ d !! k = Some v.
Proof.
  destruct o as [x|]; [|by right]. rewrite lookup_insert.
  case_decide; [|by right]. intros [= <-]. left. by subst.
Qed.

Lemma lookup_decided_insert_Some (P : Prop) `{!Decision P} (v0 : JVal)
    (k0 k : string) (d : gmap string JVal) (v : JVal) :
  (if bool_decide P then <[k0 := v0]> d else d) !! k = Some v →
  (k = k0 ∧ P ∧ v = v0) ∨ d !! k = Some v.
Proof.
  case_bool_decide; [|by right]. rewrite lookup_insert.
  case_decide; [|by right]. intros [= <-]. left. by subst.
Qed.

Lemma lookup_plain_insert_Some (v0 : JVal) (k0 k : string)
    (d : gmap string JVal) (v : JVal) :
  <[k0 := v0]> d !! k = Some v → (k = k0 ∧ v = v0) ∨ d !! k = Some v.
Proof.
  rewrite lookup_insert. case_decide; [|by right]. intros [= <-]. left. by subst.
Qed.

(** Find the assignment an entry of the mapping comes from: either the
    last one (then the goal is left to [tac]), or an earlier one. *)
Ltac trace_back H tac :=
  repeat first
    [ apply lookup_guarded_insert_Some in H as [[-> H]|H]; [tac|]
    | apply lookup_decided_insert_Some in H as [(-> & H & ->)|H]; [tac|]
    | apply lookup_plain_insert_Some in H as [[-> ->]|H]; [tac|] ].

(** Read a key through the assignments made after it was last set. *)
Ltac read_through :=
  repeat first [ rewrite lookup_insert_ne by done
               | rewrite lookup_guarded_insert_ne by done
               | rewrite lookup_tested_insert_ne by done ].

(** Bound the keys of a mapping built by a chain of assignments. *)
Ltac dom_through :=
  repeat first [ apply dom_guarded_insert; [set_solver|]
               | apply dom_tested_insert; [set_solver|]
               | apply dom_plain_insert; [set_solver|] ];
  set_solver.

Section Lookup.
Context {FS : Type} `{!FileSystem FS}.

Lemma Show_getitem_lookup_ep (myShow : Show) (s e : Z) (w : World FS) :
  Show_getitem myShow s e w
  = match lookup_ep myShow s e with
    | Some myEp => (Ret myEp, w)
    | None =>
        (Raise (match seasons myShow !! s with
                | None => tvdb_seasonnotfound (Py.str_int s)
                | Some _ => tvdb_episodenotfound (Py.str_int e)
                end), w)
    end.
Proof.
  unfold Show_getitem, lookup_ep.
  destruct (seasons myShow !! s) as [eps|]; simpl; [|done].
  by destruct (eps !! e).
Qed.

(** A round for an episode the remote show does not list: one log
    line, and [_ep_data] returns [None]. *)
Lemma _ep_data_body_not_found (ep_obj cur : TVEpisode) (myShow : Show)
    (data : gmap string JVal) (w : World FS) :
  lookup_ep myShow (season cur) (episode cur) = None →
  _ep_data_body ep_obj cur myShow data w
  = (Ret (Returned PNone),
     record_events
       [ELog ("Unable to find episode " +:+ Py.str_int (season cur) +:+ "x"
                +:+ Py.str_int (episode cur)
                +:+ " on tvdb... has it been removed? Should I delete from db?")
          MESSAGE] w).
Proof.
  intros Hnone. unfold _ep_data_body, bind, try_except.
  rewrite Show_getitem_lookup_ep, Hnone.
  by destruct (seasons myShow !! season cur).
Qed.

(** A round for a listed episode whose record lacks the name, or lacks
    the air date while the primary episode is no special: [_ep_data]
    returns [None], silently. *)
Lemma _ep_data_body_incomplete (ep_obj cur : TVEpisode) (myShow : Show)
    (data : gmap string JVal) (myEp : Episode) (w : World FS) :
  lookup_ep myShow (season cur) (episode cur) = Some myEp →
  episodename myEp = None ∨ (firstaired myEp = None ∧ season ep_obj ≠ 0) →
  _ep_data_body ep_obj cur myShow data w = (Ret (Returned PNone), w).
Proof.
  intros Hsome Hbad. unfold _ep_data_body, bind, try_except, ret.
  rewrite Show_getitem_lookup_ep, Hsome. cbv beta iota.
  destruct Hbad as [Hname|[Hdate Hseason]].
  - destruct (bool_decide (firstaired myEp = None) && bool_decide (season ep_obj = 0));
      cbn [episodename]; by rewrite Hname.
  - rewrite (bool_decide_eq_false_2 (season ep_obj = 0)) by done.
    rewrite andb_false_r, Hdate. by rewrite orb_true_r.
Qed.

(** A round for a listed episode with a name, and with an air date
    unless the primary episode is a special: the round goes through
    without an event. The show is as before, except that a missing air
    date has been filled in; the mapping has the four keys the round
    always or conditionally sets from [cur], and no key outside
    [metadata_keys] that it did not have. *)
Lemma _ep_data_body_complete (ep_obj cur : TVEpisode) (myShow : Show)
    (data : gmap string JVal) (myEp : Episode) (w : World FS) :
  lookup_ep myShow (season cur) (episode cur) = Some myEp →
  episodename myEp ≠ None →
  firstaired myEp ≠ None ∨ season ep_obj = 0 →
  ∃ data',
    _ep_data_body ep_obj cur myShow data w
    = (Ret (Normal
              (if bool_decide (firstaired myEp = None)
               then set_firstaired myShow (season cur) (episode cur)
                      (Some (Py.str_date Py.date_fromordinal_1))
               else myShow, data')), w)
    ∧ data' !! "tagline" = Some (JStr (name cur))
    ∧ data' !! "season" = Some (JStr (Py.str_int (season cur)))
    ∧ data' !! "episode" = Some (JStr (Py.str_int (episode cur)))
    ∧ data' !! "summary"
      = match description cur with
        | Some text => Some (JStr text)
        | None => data !! "summary"
        end
    ∧ dom data' ⊆ metadata_keys ∪ dom data
    ∧ (∀ k v, data' !! k = Some v →
         data !! k = Some v
         ∨ from_remote myShow cur k v ∨ from_episode_object cur k v).
Proof.
  intros Hsome Hname Hdate. unfold _ep_data_body, bind, try_except, ret.
  assert (remote_writer myShow cur = writer myEp) as Hwriter
    by (unfold remote_writer; by rewrite Hsome).
  assert (remote_director myShow cur = director myEp) as Hdirector
    by (unfold remote_director; by rewrite Hsome).
  rewrite Show_getitem_lookup_ep, Hsome. cbv beta iota.
  assert (bool_decide (episodename myEp = None) = false) as Hname'
    by by apply bool_decide_eq_false_2.
  destruct (firstaired myEp) as [aired|] eqn:Haired.
  - rewrite (bool_decide_eq_false_2 (Some aired = None)) by done.
    cbv beta iota. rewrite andb_false_l. cbv beta iota.
    rewrite Hname', Haired.
    rewrite (bool_decide_eq_false_2 (Some aired = None)) by done.
    cbn [orb]. eexists. split; [reflexivity|].
    unfold metadata_keys.
    split_and!; [by read_through; rewrite lookup_insert_eq..| |dom_through|].
    + read_through. destruct (description cur); [by rewrite lookup_insert_eq|].
      by read_through.
    + intros k v Hkv. cbn [writer director] in Hkv.
      trace_back Hkv
        ltac:(right; unfold from_remote, from_episode_object;
              rewrite ?Hwriter, ?Hdirector; naive_solver).
      by left.
  - destruct Hdate as [|Hseason]; [done|].
    rewrite (bool_decide_eq_true_2 (None = None)) by done.
    rewrite (bool_decide_eq_true_2 (season ep_obj = 0)) by done.
    cbn [andb episodename firstaired]. rewrite Hname'.
    rewrite (bool_decide_eq_false_2 (Some _ = None)) by done.
    cbn [orb]. eexists. split; [reflexivity|].
    unfold metadata_keys.
    split_and!; [by read_through; rewrite lookup_insert_eq..| |dom_through|].
    + read_through. destruct (description cur); [by rewrite lookup_insert_eq|].
      by read_through.
    + intros k v Hkv. cbn [writer director] in Hkv.
      trace_back Hkv
        ltac:(right; unfold from_remote, from_episode_object;
              rewrite ?Hwriter, ?Hdirector; naive_solver).
      by left.
Qed.

End Lookup.

(** ** The loop over the episodes to write *)

Lemma unusable_true (ep_obj cur : TVEpisode) (myShow : Show) :
  unusable ep_obj myShow cur = true →
  lookup_ep myShow (season cur) (episode cur) = None
  ∨ ∃ myEp, lookup_ep myShow (season cur) (episode cur) = Some myEp
            ∧ (episodename myEp = None
               ∨ (firstaired myEp = None ∧ season ep_obj ≠ 0)).
Proof.
  unfold unusable.
  destruct (lookup_ep myShow (season cur) (episode cur)) as [myEp|]; [|by left].
  intros Hbad. right. exists myEp. split; [done|].
  rewrite orb_true_iff, andb_true_iff, negb_true_iff, !bool_decide_eq_true,
    bool_decide_eq_false in Hbad.
  done.
Qed.

Lemma unusable_false (ep_obj cur : TVEpisode) (myShow : Show) :
  unusable ep_obj myShow cur = false →
  ∃ myEp, lookup_ep myShow (season cur) (episode cur) = Some myEp
          ∧ episodename myEp ≠ None
          ∧ (firstaired myEp ≠ None ∨ season ep_obj = 0).
Proof.
  unfold unusable.
  destruct (lookup_ep myShow (season cur) (episode cur)) as [myEp|]; [|done].
  intros Hgood. exists myEp. split; [done|].
  rewrite orb_false_iff, andb_false_iff, negb_false_iff, !bool_decide_eq_false,
    bool_decide_eq_true in Hgood.
  done.
Qed.

(** Filling in an air date while the primary episode is a special
    changes nothing about which episodes are usable. *)
Lemma unusable_set_firstaired (ep_obj cur : TVEpisode) (myShow : Show)
    (s e : Z) (v : option string) :
  season ep_obj = 0 →
  unusable ep_obj (set_firstaired myShow s e v) cur = unusable ep_obj myShow cur.
Proof.
  intros Hseason. unfold unusable. rewrite lookup_ep_set_firstaired.
  destruct (lookup_ep myShow (season cur) (episode cur)) as [myEp|]; [|done].
  simpl. rewrite (bool_decide_eq_true_2 (season ep_obj = 0)) by done.
  simpl. rewrite !andb_false_r.
  by destruct (bool_decide (s = season cur ∧ e = episode cur)).
Qed.

Arguments _ep_data_body : simpl never.

Lemma from_remote_set_firstaired (myShow : Show) (s e : Z) (v : option string)
    (cur : TVEpisode) (k : string) (val : JVal) :
  from_remote (set_firstaired myShow s e v) cur k val
  ↔ from_remote myShow cur k val.
Proof.
  unfold from_remote, remote_writer, remote_director.
  rewrite lookup_ep_set_firstaired.
  destruct (lookup_ep myShow (season cur) (episode cur)) as [myEp|]; [|done].
  simpl. by case_bool_decide.
Qed.

Section Loop.
Context {FS : Type} `{!FileSystem FS}.

(** If one of the episodes has nothing usable in the remote show, the
    loop ends with [return None]: no exception, and at most the one log
    line of a record not found. *)
Lemma _ep_data_loop_unusable (ep_obj : TVEpisode) (eps : list TVEpisode)
    (myShow : Show) (data : gmap string JVal) (w : World FS) :
  (∃ cur, cur ∈ eps ∧ unusable ep_obj myShow cur = true) →
  ∃ t, _ep_data_loop ep_obj eps myShow data w = (Ret PNone, record_events t w)
       ∧ Forall (λ e, ∃ msg, e = ELog msg MESSAGE) t.
Proof.
  revert myShow data. induction eps as [|head rest IH]; intros myShow data.
  { intros (cur & Hin & _). by apply elem_of_nil in Hin. }
  intros (cur & Hin & Hbad). simpl. unfold bind at 1.
  destruct (unusable ep_obj myShow head) eqn:Hhead.
  - apply unusable_true in Hhead as [Hnone|(myEp & Hsome & Hinc)].
    + rewrite (_ep_data_body_not_found _ _ _ _ _ Hnone).
      eexists. split; [reflexivity|]. repeat constructor. by eexists.
    + rewrite (_ep_data_body_incomplete _ _ _ _ _ _ Hsome Hinc).
      exists []. split; [|by constructor].
      unfold ret, record_events. destruct w. simpl. by rewrite app_nil_r.
  - apply elem_of_cons in Hin as [->|Hin]; [congruence|].
    apply unusable_false in Hhead as (myEp & Hsome & Hname & Hdate).
    destruct (_ep_data_body_complete ep_obj head myShow data myEp w
                Hsome Hname Hdate) as (data' & -> & _).
    apply IH. exists cur. split; [done|].
    case_bool_decide as Haired; [|done].
    destruct Hdate as [|Hseason]; [done|].
    by rewrite unusable_set_firstaired.
Qed.

(** If every episode is usable, the loop runs to [return data] without
    an event: the result is a mapping whose keys beyond those of the
    initial mapping are metadata keys; its tagline, season and episode
    are those of the last episode, its summary the description of the
    last episode that has one. *)
Lemma _ep_data_loop_usable (ep_obj : TVEpisode) (eps : list TVEpisode)
    (myShow : Show) (data : gmap string JVal) (w : World FS) :
  (∀ cur, cur ∈ eps → unusable ep_obj myShow cur = false) →
  ∃ data',
    _ep_data_loop ep_obj eps myShow data w = (Ret (PDict data'), w)
    ∧ dom data' ⊆ metadata_keys ∪ dom data
    ∧ (∀ cur, last eps = Some cur →
         data' !! "tagline" = Some (JStr (name cur))
         ∧ data' !! "season" = Some (JStr (Py.str_int (season cur)))
         ∧ data' !! "episode" = Some (JStr (Py.str_int (episode cur))))
    ∧ (∀ acc, data !! "summary" = JStr <$> acc →
         data' !! "summary" = JStr <$> last_described acc eps)
    ∧ (∀ k v, data' !! k = Some v →
         data !! k = Some v
         ∨ ∃ cur, cur ∈ eps
                  ∧ (from_remote myShow cur k v ∨ from_episode_object cur k v)).
Proof.
  revert myShow data. induction eps as [|head rest IH]; intros myShow data Hgood.
  { exists data. split_and!; [done|set_solver|done|done|by left]. }
  simpl. unfold bind at 1.
  destruct (unusable_false ep_obj head myShow) as (myEp & Hsome & Hname & Hdate).
  { apply Hgood. by left. }
  destruct (_ep_data_body_complete ep_obj head myShow data myEp w
              Hsome Hname Hdate)
    as (data1 & -> & Htag & Hseason & Hepisode & Hsummary & Hdom & Hfrom).
  set (myShow1 := if bool_decide (firstaired myEp = None)
                  then set_firstaired myShow (season head) (episode head)
                         (Some (Py.str_date Py.date_fromordinal_1))
                  else myShow).
  destruct (IH myShow1 data1) as (data' & Hrun & Hdom' & Hlast & Hsum' & Hfrom').
  { intros cur Hin. subst myShow1.
    case_bool_decide as Haired; [|apply Hgood; by right].
    destruct Hdate as [|Hzero]; [done|].
    rewrite unusable_set_firstaired by done. apply Hgood. by right. }
  rewrite Hrun. exists data'. split_and!; [done| | | |].
  - clear -Hdom Hdom'. set_solver.
  - intros cur Hcur. destruct rest as [|next rest].
    + injection Hcur as <-. injection Hrun as <-. done.
    + apply Hlast. by rewrite last_cons_cons in Hcur.
  - intros acc Hacc. simpl. apply Hsum'. rewrite Hsummary.
    by destruct (description head).
  - intros k v Hkv. destruct (Hfrom' k v Hkv) as [Hkv1|(cur & Hin & Hcur)].
    + destruct (Hfrom k v Hkv1) as [Hkv0|Hhead]; [by left|].
      right. exists head. split; [by left|done].
    + right. exists cur. split; [by right|].
      destruct Hcur as [Hcur|Hcur]; [left|by right].
      subst myShow1. case_bool_decide; [|done].
      by apply from_remote_set_firstaired in Hcur.
Qed.

End Loop.

(** ** Worlds and traces *)

Section Worlds.
Context {FS : Type}.

Lemma record_events_nil (w : World FS) : record_events [] w = w.
Proof. destruct w. unfold record_events. simpl. by rewrite app_nil_r. Qed.

Lemma record_events_app (t t' : list Event) (w : World FS) :
  record_events t' (record_events t w) = record_events (t ++ t') w.
Proof. unfold record_events. simpl. by rewrite app_assoc. Qed.

Lemma log_is_no_fs_event (t : list Event) :
  Forall (λ e, ∃ msg level, e = ELog msg level) t →
  Forall (λ e, fs_event e = false) t.
Proof.
  intros Ht. eapply Forall_impl; [exact Ht|]. by intros e (msg & level & ->).
Qed.

Lemma log_is_no_tvdb_event (t : list Event) :
  Forall (λ e, ∃ msg level, e = ELog msg level) t →
  Forall (λ e, is_tvdb_event e = false) t.
Proof.
  intros Ht. eapply Forall_impl; [exact Ht|]. by intros e (msg & level & ->).
Qed.

End Worlds.

(** ** [_ep_data] as a whole *)

Section EpData.
Context {FS : Type} `{!FileSystem FS}.

(** [_ep_data] asks the remote database once, and goes on by its
    answer. *)
Lemma _ep_data_by_reply (ep_obj : TVEpisode) (w : World FS) :
  let parms := ltvdb_api_parms (TVDB_API_PARMS w) (lang (show ep_obj)) in
  let id := tvdbid (show ep_obj) in
  let w1 := record_events [ETvdb parms id] w in
  _ep_data ep_obj w
  = match tvdb w parms id with
    | reply_show myShow =>
        _ep_data_loop ep_obj (eps_to_write ep_obj) myShow ∅ w1
    | reply_shownotfound msg => (Raise (ShowNotFoundException msg), w1)
    | reply_error msg =>
        (Ret PFalse,
         record_events
           [ELog ("Unable to connect to TVDB while creating meta files - skipping - "
                    +:+ msg) ERROR] w1)
    end.
Proof.
  intros parms id w1.
  unfold _ep_data, bind, try_except, Tvdb_getitem, bind, gets, emit, ret, raise.
  simpl. fold parms id w1. by destruct (tvdb w parms id).
Qed.

(** The loop never raises: it returns [None] after at most one log
    line, or a mapping without any event. *)
Lemma _ep_data_loop_returns (ep_obj : TVEpisode) (eps : list TVEpisode)
    (myShow : Show) (data : gmap string JVal) (w : World FS) :
  ∃ v t, _ep_data_loop ep_obj eps myShow data w = (Ret v, record_events t w)
         ∧ Forall (λ e, ∃ msg level, e = ELog msg level) t
         ∧ (v = PNone
            ∨ ∃ data', v = PDict data' ∧ t = []
                       ∧ dom data' ⊆ metadata_keys ∪ dom data).
Proof.
  destruct (decide (Exists (λ cur, unusable ep_obj myShow cur = true) eps))
    as [Hbad|Hgood].
  - apply Exists_exists in Hbad.
    destruct (_ep_data_loop_unusable ep_obj eps myShow data w Hbad)
      as (t & -> & Ht).
    exists PNone, t. split_and!; [done| |by left].
    eapply Forall_impl; [exact Ht|]. intros e [msg ->]. by do 2 eexists.
  - destruct (_ep_data_loop_usable ep_obj eps myShow data w)
      as (data' & -> & Hdom & _).
    { intros cur Hin. apply not_true_is_false. intros Hbad.
      apply Hgood, Exists_exists. by exists cur. }
    exists (PDict data'), []. rewrite record_events_nil.
    split_and!; [done|by constructor|]. right. by exists data'.
Qed.

(** [_ep_data] leaves the file system alone: the world after it is the
    world before it with the remote lookup and at most one log line on
    the trace. *)
Lemma _ep_data_world (ep_obj : TVEpisode) (w : World FS) :
  ∃ t, (_ep_data ep_obj w).2
       = record_events
           (ETvdb (ltvdb_api_parms (TVDB_API_PARMS w) (lang (show ep_obj)))
              (tvdbid (show ep_obj)) :: t) w
       ∧ Forall (λ e, ∃ msg level, e = ELog msg level) t.
Proof.
  rewrite _ep_data_by_reply. cbv zeta.
  destruct (tvdb w _ _) as [myShow|msg|msg].
  - destruct (_ep_data_loop_returns ep_obj (eps_to_write ep_obj) myShow ∅
                (record_events
                   [ETvdb (ltvdb_api_parms (TVDB_API_PARMS w) (lang (show ep_obj)))
                      (tvdbid (show ep_obj))] w))
      as (v & t & -> & Ht & _).
    exists t. by rewrite record_events_app.
  - exists []. split; [done|by constructor].
  - eexists [_]. rewrite record_events_app. split; [done|].
    repeat constructor. by do 2 eexists.
Qed.

(** The metadata path getter always returns a string, after at most a
    log line. *)
Lemma get_episode_file_path_returns (ep_obj : TVEpisode) (w : World FS) :
  ∃ p t, get_episode_file_path ep_obj w = (Ret (PathStr p), record_events t w)
         ∧ Forall (λ e, ∃ msg level, e = ELog msg level) t.
Proof.
  unfold get_episode_file_path, bind, os_path_isfile, gets, ret, logger_log, emit.
  destruct (isfile (location ep_obj) (fs w)).
  - do 2 eexists. rewrite (record_events_nil w). split; [done|by constructor].
  - do 2 eexists. split; [done|]. repeat constructor. by do 2 eexists.
Qed.

End EpData.

(** ** Writing the file *)

Section Write.
Context {FS : Type} `{!FileSystem FS} `{!JsonEncoder}.

(** [write_ep_file], phase by phase. *)
Lemma write_ep_file_phases (ep_obj : TVEpisode) (w : World FS) :
  write_ep_file ep_obj w
  = match _ep_data ep_obj w with
    | (Raise e, w1) => (Raise e, w1)
    | (Ret data, w1) =>
        if truthy data then
          match get_episode_file_path ep_obj w1 with
          | (Raise e, w2) => (Raise e, w2)
          | (Ret p, w2) =>
              let nfo_file_path := path_str p in
              let nfo_file_dir := os_path.dirname nfo_file_path in
              let meta_file_dir := os_path.dirname nfo_file_dir in
              match write_ep_file_try data nfo_file_path nfo_file_dir
                      meta_file_dir w2 with
              | (Ret _, w3) => (Ret true, w3)
              | (Raise (IOError msg), w3) =>
                  (Ret false,
                   record_events
                     [ELog ("Unable to write file to " +:+ nfo_file_path
                              +:+ " - are you sure the folder is writable? "
                              +:+ msg) ERROR] w3)
              | (Raise e, w3) => (Raise e, w3)
              end
          end
        else (Ret false, w1)
    end.
Proof.
  unfold write_ep_file, bind at 1.
  destruct (_ep_data ep_obj w) as [[data|e] w1]; [|done].
  destruct (truthy data); [|done]. cbn [negb].
  unfold bind at 1.
  destruct (get_episode_file_path ep_obj w1) as [[p|e] w2]; [|done].
  cbv zeta. unfold bind at 1, try_except, bind at 1.
  destruct (write_ep_file_try _ _ _ _ w2) as [[[]|e] w3]; [done|].
  by destruct e.
Qed.

(** One run of the [try] block: the remote database is not involved,
    the file is opened at most once and written at most once; the block
    ends normally only after opening the file, writing the serialized
    value, closing and adjusting the file's mode, in this order; it can
    only fail with an [IOError] or an [OSError]. *)
Lemma write_ep_file_try_run (data : PyVal)
    (nfo_file_path nfo_file_dir meta_file_dir : string) (w : World FS) :
  ∃ f t,
    (write_ep_file_try data nfo_file_path nfo_file_dir meta_file_dir w).2
    = mkWorld f (TVDB_API_PARMS w) (tvdb w) (trace w ++ t)
    ∧ Forall (λ e, is_tvdb_event e = false) t
    ∧ (count_events is_open_event t ≤ 1)%nat
    ∧ (count_events is_write_event t ≤ 1)%nat
    ∧ match (write_ep_file_try data nfo_file_path nfo_file_dir meta_file_dir w).1 with
      | Ret _ =>
          ∃ before f0 f1 f2 f3,
            t = (before
                ++ [ELog ("Writing episode metadata file to " +:+ nfo_file_path)
                      MESSAGE;
                    EOpen nfo_file_path "w";
                    EWrite nfo_file_path (json_dumps_val data);
                    EClose nfo_file_path;
                    EChmodAsParent nfo_file_path])%list
            ∧ open_file nfo_file_path "w" f0 = (None, f1)
            ∧ write_file nfo_file_path (json_dumps_val data) f1 = (None, f2)
            ∧ close_file nfo_file_path f2 = (None, f3)
            ∧ f = chmodAsParent nfo_file_path f3
      | Raise e => (∃ msg, e = IOError msg) ∨ (∃ msg, e = OSError msg)
      end.
Proof.
  unfold write_ep_file_try, os_path_isdir, os_makedirs, helpers_chmodAsParent,
    logger_log, open, json_dump, close, fs_call, bind, gets, emit, set_fs, ret,
    raise, record_events.
  cbn [fs trace TVDB_API_PARMS tvdb].
  repeat (case_match; simplify_eq; cbn [fs trace TVDB_API_PARMS tvdb negb fst snd] in * );
  rewrite <- ?app_assoc; cbn [app]; do 2 eexists;
  (split; [reflexivity|]);
  (split; [repeat constructor|]);
  (split; [vm_compute; lia|]);
  (split; [vm_compute; lia|]);
  eauto 10.
  all: first [ exists []; do 4 eexists; split; [reflexivity|]
             | eexists [_; _; _]; do 4 eexists; split; [reflexivity|]
             | eexists [_; _; _; _; _; _]; do 4 eexists; split; [reflexivity|] ];
    eauto.
Qed.

End Write.

(** ** Failure signals *)

Lemma checked_firstaired_None (ep_obj : TVEpisode) (myEp : Episode) :
  checked_firstaired ep_obj myEp = None
  ↔ firstaired myEp = None ∧ season ep_obj ≠ 0.
Proof.
  unfold checked_firstaired.
  destruct (firstaired myEp) as [aired|]; repeat case_bool_decide; naive_solver.
Qed.

Lemma unusable_incomplete (ep_obj cur : TVEpisode) (myShow : Show)
    (myEp : Episode) :
  lookup_ep myShow (season cur) (episode cur) = Some myEp →
  episodename myEp = None ∨ checked_firstaired ep_obj myEp = None →
  unusable ep_obj myShow cur = true.
Proof.
  intros Hsome Hbad. unfold unusable. rewrite Hsome.
  rewrite checked_firstaired_None in Hbad.
  rewrite orb_true_iff, andb_true_iff, negb_true_iff, !bool_decide_eq_true,
    bool_decide_eq_false.
  done.
Qed.

Lemma unusable_not_found (ep_obj cur : TVEpisode) (myShow : Show) :
  lookup_ep myShow (season cur) (episode cur) = None →
  unusable ep_obj myShow cur = true.
Proof. intros Hnone. unfold unusable. by rewrite Hnone. Qed.

Lemma count_events_app (p : Event → bool) (t t' : list Event) :
  count_events p (t ++ t') = (count_events p t + count_events p t')%nat.
Proof. unfold count_events. by rewrite filter_app, length_app. Qed.

Lemma count_events_none (p : Event → bool) (t : list Event) :
  Forall (λ e, p e = false) t → count_events p t = 0%nat.
Proof.
  unfold count_events. induction 1 as [|e t He _ IH]; [done|].
  rewrite filter_cons_False by congruence. done.
Qed.

Section Failures.
Context {FS : Type} `{!FileSystem FS} `{!JsonEncoder}.

(** When the show is found but one of the episodes to write has
    nothing usable, [_ep_data] returns [None] after the remote lookup
    and at most one log line. *)
Lemma _ep_data_unusable (ep_obj cur : TVEpisode) (myShow : Show) (w : World FS) :
  remote_reply w ep_obj = reply_show myShow →
  cur ∈ eps_to_write ep_obj →
  unusable ep_obj myShow cur = true →
  ∃ t, _ep_data ep_obj w
       = (Ret PNone,
          record_events
            (ETvdb (ltvdb_api_parms (TVDB_API_PARMS w) (lang (show ep_obj)))
               (tvdbid (show ep_obj)) :: t) w)
       ∧ Forall (λ e, ∃ msg level, e = ELog msg level) t.
Proof.
  intros Hreply Hin Hbad. rewrite _ep_data_by_reply. cbv zeta.
  unfold remote_reply in Hreply. rewrite Hreply.
  destruct (_ep_data_loop_unusable ep_obj (eps_to_write ep_obj) myShow ∅
              (record_events
                 [ETvdb (ltvdb_api_parms (TVDB_API_PARMS w) (lang (show ep_obj)))
                    (tvdbid (show ep_obj))] w))
    as (t & -> & Ht); [by exists cur|].
  exists t. rewrite record_events_app. split; [done|].
  eapply Forall_impl; [exact Ht|]. intros e [msg ->]. by do 2 eexists.
Qed.

(** A falsy result of [_ep_data] ends [write_ep_file] at once. *)
Lemma write_ep_file_falsy (ep_obj : TVEpisode) (w w1 : World FS) (data : PyVal) :
  _ep_data ep_obj w = (Ret data, w1) →
  truthy data = false →
  write_ep_file ep_obj w = (Ret false, w1).
Proof.
  intros Hdata Hfalsy. rewrite write_ep_file_phases, Hdata. by rewrite Hfalsy.
Qed.

(** An exception out of [_ep_data] goes through [write_ep_file]. *)
Lemma write_ep_file_raises (ep_obj : TVEpisode) (w w1 : World FS) (e : Exn) :
  _ep_data ep_obj w = (Raise e, w1) →
  write_ep_file ep_obj w = (Raise e, w1).
Proof. intros Hdata. by rewrite write_ep_file_phases, Hdata. Qed.

(** An [IOError] in the [try] block is logged and turned into
    [False]. *)
Lemma write_ep_file_ioerror (ep_obj : TVEpisode) (w w1 w2 w3 : World FS)
    (data : PyVal) (p : PyPath) (msg : string) :
  _ep_data ep_obj w = (Ret data, w1) →
  truthy data = true →
  get_episode_file_path ep_obj w1 = (Ret p, w2) →
  write_ep_file_try data (path_str p) (os_path.dirname (path_str p))
    (os_path.dirname (os_path.dirname (path_str p))) w2
  = (Raise (IOError msg), w3) →
  write_ep_file ep_obj w
  = (Ret false,
     record_events
       [ELog ("Unable to write file to " +:+ path_str p
                +:+ " - are you sure the folder is writable? " +:+ msg)
          ERROR] w3).
Proof.
  intros Hdata Htruthy Hpath Htry.
  rewrite write_ep_file_phases, Hdata, Htruthy, Hpath. cbv zeta.
  by rewrite Htry.
Qed.

(** C4. If the show is found and the remote record of one of the
    episodes to write has no ['episodename'], or no ['firstaired'] once
    the substitution for specials has been made, then [_ep_data] returns
    [None] and [write_ep_file] returns [False]; the file system is the
    one before the call and no file system call has been made. *)
Theorem missing_required_field_skips (ep_obj cur : TVEpisode)
    (myShow : Show) (myEp : Episode) (w : World FS) :
  remote_reply w ep_obj = reply_show myShow →
  cur ∈ eps_to_write ep_obj →
  lookup_ep myShow (season cur) (episode cur) = Some myEp →
  episodename myEp = None ∨ checked_firstaired ep_obj myEp = None →
  (_ep_data ep_obj w).1 = Ret PNone
  ∧ (write_ep_file ep_obj w).1 = Ret false
  ∧ fs (write_ep_file ep_obj w).2 = fs w
  ∧ ∃ t, trace (write_ep_file ep_obj w).2 = (trace w ++ t)%list
         ∧ Forall (λ e, fs_event e = false) t.
Proof.
  intros Hreply Hin Hsome Hbad.
  destruct (_ep_data_unusable ep_obj cur myShow w Hreply Hin)
    as (t & Hdata & Ht); [by eapply unusable_incomplete|].
  rewrite (write_ep_file_falsy _ _ _ _ Hdata eq_refl), Hdata.
  split_and!; [done..|].
  eexists. split; [done|]. constructor; [done|]. by apply log_is_no_fs_event.
Qed.

(** C1 (amended). Absent required fields and an episode or season the
    remote show does not list make [_ep_data] return [None] and
    [write_ep_file] return [False]; an [IOError] while writing makes
    [write_ep_file] return [False]; none of these raises. A show the
    remote database does not know is different: [_ep_data] raises
    [ShowNotFoundException], and so does [write_ep_file]. *)
Theorem failure_signals (ep_obj : TVEpisode) (w : World FS) :
  (∀ myShow cur myEp,
     remote_reply w ep_obj = reply_show myShow →
     cur ∈ eps_to_write ep_obj →
     lookup_ep myShow (season cur) (episode cur) = Some myEp →
     episodename myEp = None ∨ checked_firstaired ep_obj myEp = None →
     (_ep_data ep_obj w).1 = Ret PNone
     ∧ (write_ep_file ep_obj w).1 = Ret false)
  ∧ (∀ myShow cur,
       remote_reply w ep_obj = reply_show myShow →
       cur ∈ eps_to_write ep_obj →
       lookup_ep myShow (season cur) (episode cur) = None →
       (_ep_data ep_obj w).1 = Ret PNone
       ∧ (write_ep_file ep_obj w).1 = Ret false)
  ∧ (∀ data w1 p w2 msg w3,
       _ep_data ep_obj w = (Ret data, w1) →
       truthy data = true →
       get_episode_file_path ep_obj w1 = (Ret p, w2) →
       write_ep_file_try data (path_str p) (os_path.dirname (path_str p))
         (os_path.dirname (os_path.dirname (path_str p))) w2
       = (Raise (IOError msg), w3) →
       (write_ep_file ep_obj w).1 = Ret false)
  ∧ (∀ msg,
       remote_reply w ep_obj = reply_shownotfound msg →
       (_ep_data ep_obj w).1 = Raise (ShowNotFoundException msg)
       ∧ (write_ep_file ep_obj w).1 = Raise (ShowNotFoundException msg)).
Proof.
  split_and!.
  - intros myShow cur myEp Hreply Hin Hsome Hbad.
    destruct (_ep_data_unusable ep_obj cur myShow w Hreply Hin)
      as (t & Hdata & _); [by eapply unusable_incomplete|].
    by rewrite (write_ep_file_falsy _ _ _ _ Hdata eq_refl), Hdata.
  - intros myShow cur Hreply Hin Hnone.
    destruct (_ep_data_unusable ep_obj cur myShow w Hreply Hin)
      as (t & Hdata & _); [by apply unusable_not_found|].
    by rewrite (write_ep_file_falsy _ _ _ _ Hdata eq_refl), Hdata.
  - intros data w1 p w2 msg w3 Hdata Htruthy Hpath Htry.
    by rewrite (write_ep_file_ioerror _ _ _ _ _ _ _ _ Hdata Htruthy Hpath Htry).
  - intros msg Hreply. unfold remote_reply in Hreply.
    pose proof (_ep_data_by_reply ep_obj w) as Hdata. cbv zeta in Hdata.
    rewrite Hreply in Hdata.
    by rewrite (write_ep_file_raises _ _ _ _ Hdata), Hdata.
Qed.

(** C5. When the remote database cannot be reached, [_ep_data] asks it
    once, logs the failure as an error and returns [False], and
    [write_ep_file] returns [False] without anything more happening.
    When the [try] block of [write_ep_file] ends in an [IOError], the
    failure is logged as an error and [write_ep_file] returns [False];
    in that run the remote database was asked once and the file opened
    at most once. Neither case raises. *)
Theorem unreachable_or_unwritable_is_logged (ep_obj : TVEpisode) (w : World FS) :
  (∀ msg,
     remote_reply w ep_obj = reply_error msg →
     let w' :=
       record_events
         [ETvdb (ltvdb_api_parms (TVDB_API_PARMS w) (lang (show ep_obj)))
            (tvdbid (show ep_obj));
          ELog ("Unable to connect to TVDB while creating meta files - skipping - "
                  +:+ msg) ERROR] w in
     _ep_data ep_obj w = (Ret PFalse, w')
     ∧ write_ep_file ep_obj w = (Ret false, w'))
  ∧ (∀ data w1 p w2 msg w3,
       _ep_data ep_obj w = (Ret data, w1) →
       truthy data = true →
       get_episode_file_path ep_obj w1 = (Ret p, w2) →
       write_ep_file_try data (path_str p) (os_path.dirname (path_str p))
         (os_path.dirname (os_path.dirname (path_str p))) w2
       = (Raise (IOError msg), w3) →
       write_ep_file ep_obj w
       = (Ret false,
          record_events
            [ELog ("Unable to write file to " +:+ path_str p
                     +:+ " - are you sure the folder is writable? " +:+ msg)
               ERROR] w3)
       ∧ ∃ t, trace w3 = (trace w ++ t)%list
              ∧ count_events is_tvdb_event t = 1%nat
              ∧ (count_events is_open_event t ≤ 1)%nat).
Proof.
  split.
  - intros msg Hreply w'. unfold remote_reply in Hreply.
    pose proof (_ep_data_by_reply ep_obj w) as Hdata. cbv zeta in Hdata.
    rewrite Hreply, record_events_app in Hdata.
    by rewrite (write_ep_file_falsy _ _ _ _ Hdata eq_refl), Hdata.
  - intros data w1 p w2 msg w3 Hdata Htruthy Hpath Htry.
    split; [by apply (write_ep_file_ioerror _ _ _ _ _ _ _ _ Hdata Htruthy Hpath Htry)|].
    destruct (_ep_data_world ep_obj w) as (t1 & Hw1 & Ht1).
    rewrite Hdata in Hw1. simpl in Hw1. subst w1.
    destruct (get_episode_file_path_returns ep_obj
                (record_events
                   (ETvdb (ltvdb_api_parms (TVDB_API_PARMS w) (lang (show ep_obj)))
                      (tvdbid (show ep_obj)) :: t1) w))
      as (p' & t2 & Hpath' & Ht2).
    rewrite Hpath in Hpath'. injection Hpath' as -> ->.
    destruct (write_ep_file_try_run data (path_str (PathStr p'))
                (os_path.dirname (path_str (PathStr p')))
                (os_path.dirname (os_path.dirname (path_str (PathStr p'))))
                (record_events t2
                   (record_events
                      (ETvdb (ltvdb_api_parms (TVDB_API_PARMS w) (lang (show ep_obj)))
                         (tvdbid (show ep_obj)) :: t1) w)))
      as (f & t3 & Hw3 & Htvdb & Hopen & _).
    rewrite Htry in Hw3. simpl in Hw3. subst w3. simpl.
    exists ((ETvdb (ltvdb_api_parms (TVDB_API_PARMS w) (lang (show ep_obj)))
               (tvdbid (show ep_obj)) :: t1) ++ t2 ++ t3)%list.
    split_and!.
    + by rewrite <- !app_assoc.
    + rewrite !count_events_app.
      rewrite (count_events_none _ t2), (count_events_none _ t3)
        by (done || by apply log_is_no_tvdb_event).
      change (ETvdb ?a ?b :: t1) with ([ETvdb a b] ++ t1)%list.
      rewrite count_events_app, (count_events_none _ t1)
        by by apply log_is_no_tvdb_event.
      done.
    + rewrite !count_events_app.
      change (ETvdb ?a ?b :: t1) with ([ETvdb a b] ++ t1)%list.
      rewrite count_events_app.
      rewrite (count_events_none _ t1), (count_events_none _ t2).
      * simpl. done.
      * eapply Forall_impl; [exact Ht2|]. by intros e (m & l & ->).
      * eapply Forall_impl; [exact Ht1|]. by intros e (m & l & ->).
Qed.

End Failures.

(** ** The mapping and its serialization *)

Lemma str_date_fromordinal_1 : Py.str_date Py.date_fromordinal_1 = "0001-01-01".
Proof. reflexivity. Qed.

Lemma last_eps_to_write (ep_obj : TVEpisode) :
  ∃ cur, last (eps_to_write ep_obj) = Some cur.
Proof.
  apply (last_is_Some (eps_to_write ep_obj)). by unfold eps_to_write.
Qed.

Section Mapping.
Context {FS : Type} `{!FileSystem FS} `{!JsonEncoder}.

(** The loop returns a mapping only when every episode was usable. *)
Lemma _ep_data_loop_dict (ep_obj : TVEpisode) (eps : list TVEpisode)
    (myShow : Show) (data d : gmap string JVal) (w w' : World FS) :
  _ep_data_loop ep_obj eps myShow data w = (Ret (PDict d), w') →
  ∀ cur, cur ∈ eps → unusable ep_obj myShow cur = false.
Proof.
  intros Hrun cur Hin. apply not_true_is_false. intros Hbad.
  destruct (_ep_data_loop_unusable ep_obj eps myShow data w) as (t & Hnone & _);
    [by exists cur|].
  congruence.
Qed.

(** [_ep_data] returns a mapping only for a show that was found and
    whose episodes to write were all usable; the mapping is then the one
    the loop builds from the empty one, and nothing was logged. *)
Lemma _ep_data_dict (ep_obj : TVEpisode) (d : gmap string JVal) (w w1 : World FS) :
  _ep_data ep_obj w = (Ret (PDict d), w1) →
  ∃ myShow,
    remote_reply w ep_obj = reply_show myShow
    ∧ (∀ cur, cur ∈ eps_to_write ep_obj → unusable ep_obj myShow cur = false)
    ∧ w1 = record_events
             [ETvdb (ltvdb_api_parms (TVDB_API_PARMS w) (lang (show ep_obj)))
                (tvdbid (show ep_obj))] w
    ∧ _ep_data_loop ep_obj (eps_to_write ep_obj) myShow ∅ w1 = (Ret (PDict d), w1).
Proof.
  rewrite _ep_data_by_reply. cbv zeta. unfold remote_reply.
  destruct (tvdb w _ _) as [myShow|msg|msg]; [|done..].
  intros Hrun. exists myShow. split; [done|].
  pose proof (_ep_data_loop_dict _ _ _ _ _ _ _ Hrun) as Hgood.
  split; [done|].
  destruct (_ep_data_loop_usable ep_obj (eps_to_write ep_obj) myShow ∅
              (record_events
                 [ETvdb (ltvdb_api_parms (TVDB_API_PARMS w) (lang (show ep_obj)))
                    (tvdbid (show ep_obj))] w) Hgood)
    as (d' & Hrun' & _).
  rewrite Hrun' in Hrun. injection Hrun as -> <-. done.
Qed.

(** C6 (amended). A mapping returned by [_ep_data] has its keys among
    the ten metadata keys (tagline, season and episode always among
    them). Its title, writer, director, actor and genre entries are taken
    from the remote answer; its tagline, season, episode, summary and
    original_available entries are taken from the episode objects to
    write. When [write_ep_file] returns [True], [_ep_data] had returned a
    mapping, and what was written, once, to the file at the path of
    [get_episode_file_path], opened for writing, is the serialization of
    that very mapping; the file was then closed. *)
Theorem metadata_mapping_written_verbatim (ep_obj : TVEpisode) (w : World FS) :
  (∀ d w1,
     _ep_data ep_obj w = (Ret (PDict d), w1) →
     ∃ myShow,
       remote_reply w ep_obj = reply_show myShow
       ∧ dom d ⊆ metadata_keys
       ∧ {[ "tagline"; "season"; "episode" ]} ⊆ dom d
       ∧ ∀ k v, d !! k = Some v →
           ∃ cur, cur ∈ eps_to_write ep_obj
                  ∧ (from_remote myShow cur k v ∨ from_episode_object cur k v))
  ∧ (∀ w',
       write_ep_file ep_obj w = (Ret true, w') →
       ∃ d w1 p w2 before f0 f1 f2 f3,
         _ep_data ep_obj w = (Ret (PDict d), w1)
         ∧ get_episode_file_path ep_obj w1 = (Ret (PathStr p), w2)
         ∧ trace w'
           = (trace w2 ++ before
              ++ [ELog ("Writing episode metadata file to " +:+ p) MESSAGE;
                  EOpen p "w";
                  EWrite p (json_dumps d);
                  EClose p;
                  EChmodAsParent p])%list
         ∧ count_events is_write_event before = 0%nat
         ∧ open_file p "w" f0 = (None, f1)
         ∧ write_file p (json_dumps d) f1 = (None, f2)
         ∧ close_file p f2 = (None, f3)
         ∧ fs w' = chmodAsParent p f3).
Proof.
  split.
  - intros d w1 Hdata.
    destruct (_ep_data_dict _ _ _ _ Hdata) as (myShow & Hreply & Hgood & _ & Hrun).
    destruct (_ep_data_loop_usable ep_obj (eps_to_write ep_obj) myShow ∅ w1 Hgood)
      as (d' & Hrun' & Hdom & Hlast & _ & Hfrom).
    rewrite Hrun' in Hrun. injection Hrun as ->.
    destruct (last_eps_to_write ep_obj) as [cur Hcur].
    destruct (Hlast cur Hcur) as (Htag & Hseason & Hepisode).
    exists myShow. split_and!; [done|set_solver| |].
    + intros k Hk. apply elem_of_dom.
      assert (k = "tagline" ∨ k = "season" ∨ k = "episode") as [->|[->| ->]]
        by set_solver; by eexists.
    + intros k v Hkv. by destruct (Hfrom k v Hkv) as [Hempty|Hcome].
  - intros w' Hwrite. rewrite write_ep_file_phases in Hwrite.
    destruct (_ep_data ep_obj w) as [[data|e] w1] eqn:Hdata; [|done].
    destruct (truthy data) eqn:Htruthy; [|done].
    destruct data as [| |d]; [done..|].
    destruct (get_episode_file_path_returns ep_obj w1) as (p & t & Hpath & _).
    rewrite Hpath in Hwrite. cbv zeta in Hwrite. cbn [path_str] in Hwrite.
    destruct (write_ep_file_try_run (PDict d) p (os_path.dirname p)
                (os_path.dirname (os_path.dirname p)) (record_events t w1))
      as (f & t' & Hw3 & _ & _ & Hwrites & Hshape).
    destruct (write_ep_file_try _ _ _ _ _) as [[[]|e] w3]; [|by destruct e].
    injection Hwrite as <-. simpl in Hw3, Hshape.
    destruct Hshape as (before & f0 & f1 & f2 & f3 & -> & Hopen & Hwr & Hclose & ->).
    exists d, w1, p, (record_events t w1), before, f0, f1, f2, f3.
    subst w3. split_and!; try done.
    rewrite count_events_app in Hwrites.
    change (count_events is_write_event [_; _; _; _; _]) with 1%nat in Hwrites.
    lia.
Qed.

End Mapping.

(** ** Specials and multi-episode files *)

Section Episodes.
Context {FS : Type} `{!FileSystem FS}.

(** C9. For an episode to write whose remote record has a name but no
    air date, the round of the loop depends on the season of the primary
    episode [ep_obj], whatever the season of the episode being
    processed: if [ep_obj] is a special, the record's ['firstaired'] is
    set to ['0001-01-01'] before the required fields are checked, and the
    round goes through; otherwise [_ep_data] returns [None]. Hence, when
    the show is found and all its records at hand have names, an episode
    without air date makes [_ep_data] return [None] exactly when
    [ep_obj] is no special. *)
Theorem special_air_date_substituted (ep_obj : TVEpisode) :
  (∀ cur myShow data myEp (w : World FS),
     lookup_ep myShow (season cur) (episode cur) = Some myEp →
     firstaired myEp = None →
     episodename myEp ≠ None →
     if bool_decide (season ep_obj = 0) then
       ∃ data',
         _ep_data_body ep_obj cur myShow data w
         = (Ret (Normal
                   (set_firstaired myShow (season cur) (episode cur)
                      (Some "0001-01-01"), data')), w)
         ∧ firstaired
             <$> lookup_ep
                   (set_firstaired myShow (season cur) (episode cur)
                      (Some "0001-01-01"))
                   (season cur) (episode cur)
           = Some (Some "0001-01-01")
     else
       _ep_data_body ep_obj cur myShow data w = (Ret (Returned PNone), w))
  ∧ (∀ myShow (w : World FS),
       remote_reply w ep_obj = reply_show myShow →
       (∀ cur, cur ∈ eps_to_write ep_obj →
          ∃ myEp, lookup_ep myShow (season cur) (episode cur) = Some myEp
                  ∧ episodename myEp ≠ None) →
       (∃ cur myEp, cur ∈ eps_to_write ep_obj
                    ∧ lookup_ep myShow (season cur) (episode cur) = Some myEp
                    ∧ firstaired myEp = None) →
       if bool_decide (season ep_obj = 0)
       then ∃ d, (_ep_data ep_obj w).1 = Ret (PDict d)
       else (_ep_data ep_obj w).1 = Ret PNone).
Proof.
  split.
  - intros cur myShow data myEp w Hsome Hdate Hname.
    case_bool_decide as Hseason.
    + destruct (_ep_data_body_complete ep_obj cur myShow data myEp w Hsome Hname)
        as (data' & Hbody & _); [by right|].
      rewrite Hdate, bool_decide_eq_true_2, str_date_fromordinal_1 in Hbody by done.
      exists data'. split; [done|].
      rewrite lookup_ep_set_firstaired, Hsome. simpl.
      by rewrite bool_decide_eq_true_2.
    + apply (_ep_data_body_incomplete _ _ _ _ myEp); [done|by right].
  - intros myShow w Hreply Hnames (cur & myEp & Hin & Hsome & Hdate).
    pose proof (_ep_data_by_reply ep_obj w) as Hdata. cbv zeta in Hdata.
    unfold remote_reply in Hreply. rewrite Hreply in Hdata.
    set (w1 := record_events
                 [ETvdb (ltvdb_api_parms (TVDB_API_PARMS w) (lang (show ep_obj)))
                    (tvdbid (show ep_obj))] w) in *.
    case_bool_decide as Hseason.
    + destruct (_ep_data_loop_usable ep_obj (eps_to_write ep_obj) myShow ∅ w1)
        as (d & Hrun & _).
      { intros cur' Hin'. destruct (Hnames cur' Hin') as (myEp' & Hsome' & Hname').
        unfold unusable. rewrite Hsome'.
        rewrite (bool_decide_eq_false_2 (episodename myEp' = None)) by done.
        rewrite (bool_decide_eq_true_2 (season ep_obj = 0)) by done.
        simpl. by rewrite andb_false_r. }
      exists d. by rewrite Hdata, Hrun.
    + destruct (_ep_data_loop_unusable ep_obj (eps_to_write ep_obj) myShow ∅ w1)
        as (t & Hrun & _).
      { exists cur. split; [done|].
        apply (unusable_incomplete _ _ _ myEp); [done|].
        right. by apply checked_firstaired_None. }
      by rewrite Hdata, Hrun.
Qed.

(** C10 (amended). Whatever the related episodes, a mapping returned
    by [_ep_data] has the tagline, season and episode of the last of the
    episodes to write; its summary is the description of the last
    episode to write that has a description (an episode without one
    leaves the summary of an earlier episode in place), and is absent if
    none has. *)
Theorem multi_episode_last_wins (ep_obj : TVEpisode) (w : World FS)
    (d : gmap string JVal) (final : TVEpisode) :
  (_ep_data ep_obj w).1 = Ret (PDict d) →
  last (eps_to_write ep_obj) = Some final →
  d !! "tagline" = Some (JStr (name final))
  ∧ d !! "season" = Some (JStr (Py.str_int (season final)))
  ∧ d !! "episode" = Some (JStr (Py.str_int (episode final)))
  ∧ d !! "summary" = JStr <$> last_described None (eps_to_write ep_obj).
Proof.
  intros Hdata Hfinal.
  destruct (_ep_data ep_obj w) as [r w1] eqn:Hrun. simpl in Hdata. subst r.
  destruct (_ep_data_dict _ _ _ _ Hrun) as (myShow & _ & Hgood & _ & Hloop).
  destruct (_ep_data_loop_usable ep_obj (eps_to_write ep_obj) myShow ∅ w1 Hgood)
    as (d' & Hloop' & _ & Hlast & Hsummary).
  rewrite Hloop' in Hloop. injection Hloop as ->.
  destruct (Hlast final Hfinal) as (Htag & Hseason & Hepisode).
  split_and!; [done..|]. by apply Hsummary.
Qed.

End Episodes.

(** * Further properties *)

(** ** The layout under [@eaDir] *)

Lemma string_app_cons (c : ascii) (r s : string) :
  String c r +:+ s = String c (r +:+ s).
Proof. reflexivity. Qed.

Lemma string_app_nil_r (s : string) : s +:+ "" = s.
Proof. induction s as [|c r IH]; [done|]. by rewrite string_app_cons, IH. Qed.

Lemma string_app_assoc (s1 s2 s3 : string) :
  (s1 +:+ s2) +:+ s3 = s1 +:+ s2 +:+ s3.
Proof.
  induction s1 as [|c r IH]; [done|]. by rewrite !string_app_cons, IH.
Qed.

Lemma cut_last_slash_no_slash (x : string) :
  no_slash x = true → Py.cut_last_slash x = None.
Proof.
  induction x as [|c r IH]; [done|]. simpl.
  intros [Hc Hr]%andb_true_iff. rewrite (IH Hr).
  by apply negb_true_iff in Hc as ->.
Qed.

Lemma cut_last_slash_app (q x : string) :
  no_slash x = true →
  Py.cut_last_slash (q +:+ x)
  = match Py.cut_last_slash q with
    | Some (h, t) => Some (h, t +:+ x)
    | None => None
    end.
Proof.
  intros Hx. induction q as [|c r IH].
  - by apply cut_last_slash_no_slash.
  - rewrite string_app_cons. simpl. rewrite IH.
    destruct (Py.cut_last_slash r) as [[h t]|]; [done|].
    by case_bool_decide.
Qed.

Lemma cut_last_slash_ends (q : string) :
  Py.ends_with_slash q = true → Py.cut_last_slash q = Some (q, "").
Proof.
  induction q as [|c r IH]; [done|].
  destruct r as [|c' r'].
  - simpl. intros Hc. by rewrite Hc.
  - intros Hends. change (Py.ends_with_slash (String c' r') = true) in Hends.
    change (Py.cut_last_slash (String c (String c' r')))
      with (match Py.cut_last_slash (String c' r') with
            | Some (h, t) => Some (String c h, t)
            | None =>
                if bool_decide (c = "/"%char)
                then Some (String c EmptyString, String c' r')
                else None
            end).
    by rewrite (IH Hends).
Qed.

Lemma rstrip_slash_no_trailing (p : string) :
  Py.ends_with_slash p = false → Py.rstrip_slash p = p.
Proof.
  induction p as [|c r IH]; [done|].
  destruct r as [|c' r'].
  - simpl. by intros ->.
  - intros Hends. change (Py.ends_with_slash (String c' r') = false) in Hends.
    change (Py.rstrip_slash (String c (String c' r')))
      with (match Py.rstrip_slash (String c' r') with
            | EmptyString =>
                if bool_decide (c = "/"%char) then EmptyString
                else String c EmptyString
            | r'' => String c r''
            end).
    by rewrite (IH Hends).
Qed.

Lemma rstrip_slash_snoc (p : string) :
  Py.rstrip_slash (p +:+ "/") = Py.rstrip_slash p.
Proof.
  induction p as [|c r IH]; [done|].
  rewrite string_app_cons. simpl. by rewrite IH.
Qed.

Lemma ends_with_slash_snoc (p : string) : Py.ends_with_slash (p +:+ "/") = true.
Proof.
  induction p as [|c r IH]; [done|].
  rewrite string_app_cons. destruct r as [|c' r']; [done|].
  rewrite string_app_cons in *. exact IH.
Qed.

Lemma ends_with_slash_app (p x : string) :
  x ≠ "" → Py.ends_with_slash (p +:+ x) = Py.ends_with_slash x.
Proof.
  intros Hx. induction p as [|c r IH]; [done|].
  rewrite string_app_cons.
  destruct (r +:+ x) as [|c' r'] eqn:Hrx.
  - destruct r; [|done]. by destruct x.
  - exact IH.
Qed.

Lemma ends_with_slash_no_slash (x : string) :
  no_slash x = true → Py.ends_with_slash x = false.
Proof.
  induction x as [|c r IH]; [done|]. simpl.
  intros [Hc Hr]%andb_true_iff. apply negb_true_iff in Hc.
  destruct r; [done|]. by apply IH.
Qed.

Lemma all_slashes_no_trailing (p : string) :
  p ≠ "" → Py.ends_with_slash p = false → Py.all_slashes p = false.
Proof.
  induction p as [|c r IH]; [done|]. intros _.
  destruct r as [|c' r'].
  - simpl. by intros ->.
  - intros Hends. change (Py.ends_with_slash (String c' r') = false) in Hends.
    simpl. simpl in IH. rewrite IH by done. by rewrite andb_false_r.
Qed.

Lemma all_slashes_snoc (p : string) :
  Py.all_slashes (p +:+ "/") = Py.all_slashes p.
Proof.
  induction p as [|c r IH]; [done|]. rewrite string_app_cons. simpl.
  by rewrite IH.
Qed.

Lemma all_slashes_ends (p : string) :
  p ≠ "" → Py.all_slashes p = true → Py.ends_with_slash p = true.
Proof.
  intros Hp Hall. destruct (Py.ends_with_slash p) eqn:Hends; [done|].
  by rewrite all_slashes_no_trailing in Hall.
Qed.

Lemma rstrip_slash_all_slashes (h : string) :
  Py.all_slashes h = true → Py.rstrip_slash h = "".
Proof.
  induction h as [|c r IH]; [done|]. simpl.
  intros [Hc Hr]%andb_true_iff. by rewrite (IH Hr), Hc.
Qed.

Lemma rstrip_slash_shape (h : string) :
  Py.all_slashes h = false →
  Py.rstrip_slash h ≠ "" ∧ Py.ends_with_slash (Py.rstrip_slash h) = false.
Proof.
  induction h as [|c r IH]; [done|]. simpl.
  destruct (Py.rstrip_slash r) as [|c' r'] eqn:Hr.
  - case_bool_decide as Hc; simpl.
    + intros Hall. destruct (IH Hall) as [Hne _]. done.
    + intros _. split; [done|]. by apply bool_decide_eq_false_2.
  - intros _. split; [done|].
    change (Py.ends_with_slash (String c' r') = false).
    destruct (Py.all_slashes r) eqn:Hall.
    + by rewrite rstrip_slash_all_slashes in Hr.
    + by destruct (IH eq_refl) as [_ Hends].
Qed.

(** What [os.path.split] makes of a path that ends in a name without
    slash. *)
Lemma split_dir_name (q x : string) :
  Py.ends_with_slash q = true → no_slash x = true →
  os_path.split (q +:+ x)
  = (if Py.all_slashes q then q else Py.rstrip_slash q, x).
Proof.
  intros Hq Hx. unfold os_path.split.
  rewrite (cut_last_slash_app _ _ Hx), (cut_last_slash_ends _ Hq).
  assert (q ≠ "") as Hne by (by destruct q).
  rewrite bool_decide_eq_false_2 by done. simpl.
  by destruct (Py.all_slashes q).
Qed.

Lemma split_no_slash (x : string) :
  no_slash x = true → os_path.split x = ("", x).
Proof.
  intros Hx. unfold os_path.split. by rewrite (cut_last_slash_no_slash _ Hx).
Qed.

(** Joining a name without slash to a directory, and splitting again. *)
Lemma join_step_split (p x : string) :
  p ≠ "" → Py.ends_with_slash p = false → x ≠ "" → no_slash x = true →
  os_path.join_step p x = p +:+ "/" +:+ x
  ∧ os_path.split (p +:+ "/" +:+ x) = (p, x)
  ∧ Py.ends_with_slash (p +:+ "/" +:+ x) = false.
Proof.
  intros Hp Hends Hx Hslash. split_and!.
  - unfold os_path.join_step.
    assert (Py.starts_with_slash x = false) as ->.
    { destruct x as [|c r]; [done|]. simpl in *.
      apply andb_true_iff in Hslash as [Hc _]. by apply negb_true_iff in Hc. }
    rewrite Hends. by rewrite bool_decide_eq_false_2.
  - rewrite <- string_app_assoc.
    rewrite split_dir_name by (done || apply ends_with_slash_snoc).
    rewrite all_slashes_snoc, (all_slashes_no_trailing _ Hp Hends).
    by rewrite rstrip_slash_snoc, rstrip_slash_no_trailing.
  - rewrite <- string_app_assoc, ends_with_slash_app by done.
    by apply ends_with_slash_no_slash.
Qed.

Lemma basename_no_slash (p : string) : no_slash (os_path.basename p) = true.
Proof.
  unfold os_path.basename, os_path.split.
  assert (∀ h t, Py.cut_last_slash p = Some (h, t) → no_slash t = true) as Hsome.
  { induction p as [|c r IH]; [done|]. simpl. intros h t.
    destruct (Py.cut_last_slash r) as [[h' t']|] eqn:Hr.
    - intros [= <- <-]. by eapply IH.
    - case_bool_decide; [|done]. intros [= <- <-].
      clear IH. induction r as [|d r IHr]; [done|]. simpl in *.
      destruct (Py.cut_last_slash r) as [[h' t']|]; [done|].
      case_bool_decide; [done|]. simpl. by apply IHr. }
  assert (Py.cut_last_slash p = None → no_slash p = true) as Hnone.
  { induction p as [|c r IH]; [done|]. simpl.
    destruct (Py.cut_last_slash r) as [[h' t']|]; [done|].
    case_bool_decide; [done|]. intros _. simpl. apply IH; [done|done]. }
  destruct (Py.cut_last_slash p) as [[h t]|]; simpl.
  - by eapply Hsome.
  - by apply Hnone.
Qed.

(** The directory part of a path is empty, or made of slashes only, or
    has no slash at its end. *)
Lemma dirname_shape (p : string) :
  os_path.dirname p = ""
  ∨ (Py.all_slashes (os_path.dirname p) = true
     ∧ Py.ends_with_slash (os_path.dirname p) = true)
  ∨ (os_path.dirname p ≠ "" ∧ Py.ends_with_slash (os_path.dirname p) = false).
Proof.
  unfold os_path.dirname, os_path.split.
  destruct (Py.cut_last_slash p) as [[h t]|]; simpl; [|by left].
  destruct h as [|c r]; [by left|].
  rewrite bool_decide_eq_false_2 by done. simpl negb at 1. cbn [andb].
  destruct (Py.all_slashes (String c r)) eqn:Hall; simpl negb.
  - right. left. split; [done|]. by apply all_slashes_ends.
  - right. right. by apply rstrip_slash_shape.
Qed.

(** The chain of directories of the two paths of an episode: with
    [d] the directory and [b] the (non-empty) base name of the location,
    the [@eaDir] directory [m] is [d] joined with ['@eaDir'], the
    directory [n] of the episode is [m] joined with [b]; each is the
    directory part of the next, down to the file [n/name]. *)
Lemma eaDir_chain (loc name : string) :
  os_path.basename loc ≠ "" → name ≠ "" → no_slash name = true →
  let d := os_path.dirname loc in
  let b := os_path.basename loc in
  let m := os_path.join d ["@eaDir"] in
  let n := os_path.join d ["@eaDir"; b] in
  let p := os_path.join n [name] in
  os_path.split p = (n, name)
  ∧ os_path.split n = (m, b)
  ∧ os_path.split m = (d, "@eaDir").
Proof.
  intros Hb Hname Hslash. cbv zeta.
  pose proof (dirname_shape loc) as Hshape.
  pose proof (basename_no_slash loc) as Hbslash.
  remember (os_path.dirname loc) as d eqn:Hd. clear Hd.
  remember (os_path.basename loc) as b eqn:Hbdef. clear Hbdef.
  set (m := os_path.join d ["@eaDir"]).
  set (n := os_path.join d ["@eaDir"; b]).
  set (p := os_path.join n [name]).
  assert (m ≠ "" ∧ Py.ends_with_slash m = false ∧ os_path.split m = (d, "@eaDir"))
    as (Hm & Hmends & Hmsplit).
  { subst m. unfold os_path.join. cbn [fold_left].
    destruct Hshape as [Hd|[[Hall Hends]|[Hne Hends]]].
    - rewrite Hd. by vm_compute.
    - assert (os_path.join_step d "@eaDir" = d +:+ "@eaDir") as ->.
      { unfold os_path.join_step. rewrite Hends. simpl. by rewrite orb_true_r. }
      split_and!.
      + by destruct d.
      + by rewrite ends_with_slash_app.
      + rewrite split_dir_name by done. by rewrite Hall.
    - destruct (join_step_split d "@eaDir" Hne Hends) as (-> & Hsplit & Hends');
        [done..|].
      split_and!; [by destruct d|done|done]. }
  assert (n = os_path.join_step m b) as Hn by reflexivity.
  destruct (join_step_split m b Hm Hmends Hb Hbslash)
    as (Hjoin & Hsplit & Hends).
  rewrite Hjoin in Hn.
  assert (n ≠ "") as Hnne by (rewrite Hn; by destruct m).
  assert (p = os_path.join_step n name) as Hp by reflexivity.
  rewrite <- Hn in Hsplit, Hends.
  destruct (join_step_split n name Hnne Hends Hname Hslash) as (Hjoin' & Hsplit' & _).
  rewrite Hp, Hjoin'. done.
Qed.

Lemma eaDir_chain_parts (loc name : string) :
  os_path.basename loc ≠ "" → name ≠ "" → no_slash name = true →
  let d := os_path.dirname loc in
  let b := os_path.basename loc in
  let m := os_path.join d ["@eaDir"] in
  let n := os_path.join d ["@eaDir"; b] in
  let p := os_path.join n [name] in
  os_path.dirname p = n ∧ os_path.basename p = name
  ∧ os_path.dirname n = m ∧ os_path.basename n = b
  ∧ os_path.dirname m = d ∧ os_path.basename m = "@eaDir".
Proof.
  intros Hb Hname Hslash d b m n p.
  destruct (eaDir_chain loc name Hb Hname Hslash) as (Hp & Hn & Hm).
  unfold os_path.dirname, os_path.basename.
  fold d b m n p in Hp, Hn, Hm. by rewrite Hp, Hn, Hm.
Qed.

Section Layout.
Context {FS : Type} `{!FileSystem FS}.

(** X1. For an episode whose location is an existing file with a
    non-empty base name [b] in directory [d], the metadata file is
    [d/@eaDir/b/SYNOVIDEO_TV_EPISODE]: taking directory parts, as
    [write_ep_file] does, leads from the file to the directory of the
    episode, named [b], to the directory named ['@eaDir'], and to [d]. *)
Theorem metadata_file_layout (ep_obj : TVEpisode) (w : World FS) :
  isfile (location ep_obj) (fs w) = true →
  os_path.basename (location ep_obj) ≠ "" →
  ∃ p,
    get_episode_file_path ep_obj w = (Ret (PathStr p), w)
    ∧ os_path.basename p = "SYNOVIDEO_TV_EPISODE"
    ∧ os_path.dirname p
      = os_path.join (os_path.dirname (location ep_obj))
          ["@eaDir"; os_path.basename (location ep_obj)]
    ∧ os_path.basename (os_path.dirname p) = os_path.basename (location ep_obj)
    ∧ os_path.dirname (os_path.dirname p)
      = os_path.join (os_path.dirname (location ep_obj)) ["@eaDir"]
    ∧ os_path.basename (os_path.dirname (os_path.dirname p)) = "@eaDir"
    ∧ os_path.dirname (os_path.dirname (os_path.dirname p))
      = os_path.dirname (location ep_obj).
Proof.
  intros Hfile Hb.
  destruct (eaDir_chain_parts (location ep_obj) "SYNOVIDEO_TV_EPISODE" Hb)
    as (Hpd & Hpb & Hnd & Hnb & Hmd & Hmb); [done..|].
  eexists. split.
  { unfold get_episode_file_path, bind, os_path_isfile, gets, ret.
    by rewrite Hfile. }
  rewrite Hpb, Hpd, Hnb, Hnd, Hmb, Hmd. done.
Qed.

(** X2. Under the same conditions the thumbnail is a different file of
    the same directory as the metadata file. *)
Theorem thumb_beside_metadata (ep_obj : TVEpisode) (w : World FS) :
  isfile (location ep_obj) (fs w) = true →
  os_path.basename (location ep_obj) ≠ "" →
  ∃ thumb meta,
    get_episode_thumb_path ep_obj w = (Ret (PathStr thumb), w)
    ∧ get_episode_file_path ep_obj w = (Ret (PathStr meta), w)
    ∧ os_path.dirname thumb = os_path.dirname meta
    ∧ os_path.basename thumb = "SYNOVIDEO_VIDEO_SCREENSHOT.jpg"
    ∧ thumb ≠ meta.
Proof.
  intros Hfile Hb.
  destruct (eaDir_chain_parts (location ep_obj) "SYNOVIDEO_TV_EPISODE" Hb)
    as (Hmd & Hmb & _); [done..|].
  destruct (eaDir_chain_parts (location ep_obj) "SYNOVIDEO_VIDEO_SCREENSHOT.jpg" Hb)
    as (Htd & Htb & _); [done..|].
  do 2 eexists. split_and!.
  - unfold get_episode_thumb_path, bind, os_path_isfile, gets, ret.
    by rewrite Hfile.
  - unfold get_episode_file_path, bind, os_path_isfile, gets, ret.
    by rewrite Hfile.
  - by rewrite Htd, Hmd.
  - by rewrite Htb.
  - intros Heq. rewrite Heq, Hmb in Htb. done.
Qed.

End Layout.

(** ** The [try] block, call by call *)

Ltac run_try_block :=
  unfold write_ep_file_try, os_path_isdir, os_makedirs, helpers_chmodAsParent,
    logger_log, open, json_dump, close, fs_call, bind, gets, emit, set_fs, ret,
    raise, record_events;
  cbn [fs trace TVDB_API_PARMS tvdb];
  repeat (case_match; simplify_eq;
          cbn [fs trace TVDB_API_PARMS tvdb negb fst snd] in * );
  rewrite <- ?app_assoc; cbn [app].


Section TryBlock.
Context {FS : Type} `{!FileSystem FS} `{!JsonEncoder}.



(** X4. When the block ends normally, its calls were, in this order:
    for the [@eaDir] directory, if [isdir] denied it, a log line,
    [makedirs] and [chmodAsParent]; the same for the directory of the
    episode, tested after that; then a log line, [open] for writing, the
    write of the serialized value, [close], and [chmodAsParent] on the
    file. *)
Theorem write_protocol (data : PyVal)
    (nfo_file_path nfo_file_dir meta_file_dir : string) (w w' : World FS) :
  write_ep_file_try data nfo_file_path nfo_file_dir meta_file_dir w
  = (Ret tt, w') →
  let f1 :=
    if isdir meta_file_dir (fs w) then fs w
    else chmodAsParent meta_file_dir (makedirs meta_file_dir (fs w)).2 in
  trace w'
  = (trace w
     ++ (if isdir meta_file_dir (fs w) then []
         else creation_events meta_file_dir)
     ++ (if isdir nfo_file_dir f1 then [] else creation_events nfo_file_dir)
     ++ writing_events nfo_file_path (json_dumps_val data))%list.
Proof.
  revert w'. run_try_block; intros w' Heq; simplify_eq; cbn [trace];
    rewrite <- ?app_assoc; cbn [app];
    repeat match goal with
           | H : makedirs _ _ = _ |- _ => rewrite H in *; clear H
           end;
    cbn [snd] in *;
    repeat match goal with
           | H : negb _ = _ |- _ => first [apply negb_true_iff in H
                                          |apply negb_false_iff in H]
           end;
    repeat match goal with
           | H : isdir _ _ = _ |- _ => rewrite H; clear H
           end;
    reflexivity.
Qed.


(** X6. An [IOError] ends the block at the failing call, which is the
    last event: [open], and then nothing was written; or the write, and
    then the file was not closed; or [close]. *)
Theorem ioerror_stops_at_failing_call (data : PyVal)
    (nfo_file_path nfo_file_dir meta_file_dir msg : string) (w w' : World FS) :
  write_ep_file_try data nfo_file_path nfo_file_dir meta_file_dir w
  = (Raise (IOError msg), w') →
  ∃ t,
    trace w' = (trace w ++ t)%list
    ∧ ((last t = Some (EOpen nfo_file_path "w")
        ∧ count_events is_write_event t = 0%nat
        ∧ count_events is_close_event t = 0%nat)
       ∨ (last t = Some (EWrite nfo_file_path (json_dumps_val data))
          ∧ count_events is_close_event t = 0%nat)
       ∨ last t = Some (EClose nfo_file_path)).
Proof.
  revert w'. run_try_block; intros w' Heq; simplify_eq; cbn [trace];
    rewrite <- ?app_assoc; cbn [app];
    (eexists; split; [reflexivity|]); auto 10.
Qed.

End TryBlock.

(** ** [write_ep_file], case by case *)

Section WriteCases.
Context {FS : Type} `{!FileSystem FS} `{!JsonEncoder}.

Lemma metadata_path_record_events (ep_obj : TVEpisode) (t : list Event)
    (w : World FS) :
  metadata_path ep_obj (record_events t w) = metadata_path ep_obj w.
Proof.
  unfold metadata_path, get_episode_file_path, bind, os_path_isfile, gets, ret,
    logger_log, emit.
  cbn [fs record_events]. by destruct (isfile (location ep_obj) (fs w)).
Qed.

(** The three ways through [write_ep_file]: [_ep_data] raises; or it
    returns a falsy value; or it returns a truthy one, and the [try]
    block is run on the path of the getter. *)
Lemma write_ep_file_cases (ep_obj : TVEpisode) (w : World FS) :
  ∃ t1,
    Forall (λ e, ∃ msg level, e = ELog msg level) t1
    ∧ let w1 :=
        record_events
          (ETvdb (ltvdb_api_parms (TVDB_API_PARMS w) (lang (show ep_obj)))
             (tvdbid (show ep_obj)) :: t1) w in
      (∃ e, _ep_data ep_obj w = (Raise e, w1)
            ∧ write_ep_file ep_obj w = (Raise e, w1))
      ∨ (∃ data, _ep_data ep_obj w = (Ret data, w1)
                 ∧ truthy data = false
                 ∧ write_ep_file ep_obj w = (Ret false, w1))
      ∨ (∃ data t2,
           _ep_data ep_obj w = (Ret data, w1)
           ∧ truthy data = true
           ∧ Forall (λ e, ∃ msg level, e = ELog msg level) t2
           ∧ get_episode_file_path ep_obj w1
             = (Ret (PathStr (metadata_path ep_obj w)), record_events t2 w1)
           ∧ write_ep_file ep_obj w
             = after_try (metadata_path ep_obj w)
                 (write_ep_file_try data (metadata_path ep_obj w)
                    (os_path.dirname (metadata_path ep_obj w))
                    (os_path.dirname (os_path.dirname (metadata_path ep_obj w)))
                    (record_events t2 w1))).
Proof.
  destruct (_ep_data_world ep_obj w) as (t1 & Hw1 & Ht1).
  exists t1. split; [done|]. cbv zeta.
  rewrite write_ep_file_phases.
  destruct (_ep_data ep_obj w) as [[data|e] w1] eqn:Hdata;
    cbn [snd] in Hw1; subst w1.
  2: { left. by exists e. }
  right. destruct (truthy data) eqn:Htruthy.
  2: { left. by exists data. }
  right.
  destruct (get_episode_file_path_returns ep_obj
              (record_events
                 (ETvdb (ltvdb_api_parms (TVDB_API_PARMS w) (lang (show ep_obj)))
                    (tvdbid (show ep_obj)) :: t1) w))
    as (p & t2 & Hpath & Ht2).
  assert (metadata_path ep_obj w = p) as Hp.
  { rewrite <- (metadata_path_record_events ep_obj
                  (ETvdb (ltvdb_api_parms (TVDB_API_PARMS w) (lang (show ep_obj)))
                     (tvdbid (show ep_obj)) :: t1) w).
    unfold metadata_path. by rewrite Hpath. }
  rewrite Hp, Hpath. cbv zeta. cbn [path_str].
  exists data, t2. split_and!; done.
Qed.

(** X7. When [_ep_data] has returned a mapping, the [@eaDir] directory
    does not exist and [os.makedirs] fails on it, [write_ep_file] raises
    the [OSError] to its caller: the [except IOError] clause does not
    apply. The failure is not logged, and no file is opened. *)
Theorem makedirs_error_propagates (ep_obj : TVEpisode) (w w1 w2 : World FS)
    (data : PyVal) (p msg : string) (f' : FS) :
  _ep_data ep_obj w = (Ret data, w1) →
  truthy data = true →
  get_episode_file_path ep_obj w1 = (Ret (PathStr p), w2) →
  isdir (os_path.dirname (os_path.dirname p)) (fs w2) = false →
  makedirs (os_path.dirname (os_path.dirname p)) (fs w2) = (Some msg, f') →
  write_ep_file ep_obj w
  = (Raise (OSError msg),
     mkWorld f' (TVDB_API_PARMS w2) (tvdb w2)
       (trace w2
        ++ [ELog ("Metadata dir didn't exist, creating it at "
                    +:+ os_path.dirname (os_path.dirname p)) DEBUG;
            EMakedirs (os_path.dirname (os_path.dirname p))])).
Proof.
  intros Hdata Htruthy Hpath Hisdir Hmake.
  rewrite write_ep_file_phases, Hdata, Htruthy, Hpath. cbv zeta. cbn [path_str].
  unfold write_ep_file_try, os_path_isdir, os_makedirs, logger_log, fs_call,
    bind, gets, emit, set_fs, ret, raise, record_events.
  cbn [fs trace TVDB_API_PARMS tvdb]. rewrite Hisdir. cbn [negb].
  cbn [fs trace TVDB_API_PARMS tvdb]. rewrite Hmake.
  cbn [fs trace TVDB_API_PARMS tvdb]. by rewrite <- app_assoc.
Qed.


End WriteCases.

(** ** Edges of [write_ep_file] and [_ep_data] *)

Section Edges.
Context {FS : Type} `{!FileSystem FS} `{!JsonEncoder}.

(** X10. The empty string that [get_episode_file_path] returns for a
    location that is no file is not examined: when [_ep_data] has
    returned a mapping, [write_ep_file] goes on and runs its [try] block
    with the empty string as file path, as directory and as [@eaDir]
    directory. *)
Theorem missing_location_is_not_noticed (ep_obj : TVEpisode) (w w1 : World FS)
    (data : PyVal) :
  isfile (location ep_obj) (fs w) = false →
  _ep_data ep_obj w = (Ret data, w1) →
  truthy data = true →
  write_ep_file ep_obj w
  = after_try ""
      (write_ep_file_try data "" "" ""
         (record_events
            [ELog ("Episode location doesn't exist: " +:+ location ep_obj) DEBUG]
            w1)).
Proof.
  intros Hfile Hdata Htruthy.
  destruct (_ep_data_world ep_obj w) as (t1 & Hw1 & _).
  rewrite Hdata in Hw1. cbn [snd] in Hw1.
  assert (fs w1 = fs w) as Hfs by by subst w1.
  rewrite write_ep_file_phases, Hdata, Htruthy.
  unfold get_episode_file_path, bind at 1, os_path_isfile, gets.
  rewrite Hfs, Hfile. unfold logger_log, emit, bind, ret.
  cbv zeta. cbn [path_str].
  change (os_path.dirname "") with "". unfold after_try.
  destruct (write_ep_file_try _ _ _ _ _) as [[[]|e] w3]; [done|]. by destruct e.
Qed.

(** X14. Whatever the number of related episodes, one call of
    [write_ep_file] asks the remote database once, first of all, for the
    show of [ep_obj]. The parameters are those of [TVDB_API_PARMS],
    except that ['language'] is the language of the show when that is
    neither empty nor ['en']. *)
Theorem one_remote_request (ep_obj : TVEpisode) (w : World FS) :
  ∃ parms t,
    trace (write_ep_file ep_obj w).2
    = (trace w ++ ETvdb parms (tvdbid (show ep_obj)) :: t)%list
    ∧ count_events is_tvdb_event t = 0%nat
    ∧ (∀ k, k ≠ "language" → parms !! k = TVDB_API_PARMS w !! k)
    ∧ parms !! "language"
      = if bool_decide (lang (show ep_obj) = "" ∨ lang (show ep_obj) = "en")
        then TVDB_API_PARMS w !! "language"
        else Some (lang (show ep_obj)).
Proof.
  exists (ltvdb_api_parms (TVDB_API_PARMS w) (lang (show ep_obj))).
  assert (∀ t, Forall (λ e, ∃ msg level, e = ELog msg level) t →
            count_events is_tvdb_event t = 0%nat) as Hlogs.
  { intros t Ht. by apply count_events_none, log_is_no_tvdb_event. }
  assert (∃ t, trace (write_ep_file ep_obj w).2
               = (trace w
                  ++ ETvdb (ltvdb_api_parms (TVDB_API_PARMS w) (lang (show ep_obj)))
                       (tvdbid (show ep_obj)) :: t)%list
               ∧ count_events is_tvdb_event t = 0%nat) as (t & Htrace & Hcount).
  { destruct (write_ep_file_cases ep_obj w) as (t1 & Ht1 & Hcases).
    cbv zeta in Hcases.
    destruct Hcases as [(e & _ & ->)|[(data & _ & _ & ->)
                                     |(data & t2 & _ & _ & Ht2 & _ & ->)]];
      cbn [snd].
    - exists t1. split; [done|by apply Hlogs].
    - exists t1. split; [done|by apply Hlogs].
    - destruct (write_ep_file_try_run data (metadata_path ep_obj w)
                  (os_path.dirname (metadata_path ep_obj w))
                  (os_path.dirname (os_path.dirname (metadata_path ep_obj w)))
                  (record_events t2
                     (record_events
                        (ETvdb (ltvdb_api_parms (TVDB_API_PARMS w) (lang (show ep_obj)))
                           (tvdbid (show ep_obj)) :: t1) w)))
        as (f & t3 & Hw3 & Ht3 & _).
      destruct (write_ep_file_try _ _ _ _ _) as [[[]|e] w3];
        cbn [snd] in Hw3; subst w3; [|destruct e];
        cbn [after_try snd trace record_events];
        rewrite <- ?app_assoc; cbn [app];
        (eexists; split; [reflexivity|]);
        rewrite ?count_events_app, (Hlogs t1), (Hlogs t2),
          (count_events_none _ t3) by done;
        done. }
  exists t. split_and!; [done..| |].
  - intros k Hk. unfold ltvdb_api_parms.
    case_match; [by rewrite lookup_insert_ne|done].
  - unfold ltvdb_api_parms.
    repeat case_bool_decide; simpl; try (by rewrite lookup_insert_eq); naive_solver.
Qed.

End Edges.

(** ** The mapping, key by key *)

Lemma lookup_guarded_insert_eq {A} (o : option A) (f : A → JVal) (k : string)
    (d : gmap string JVal) :
  match o with Some x => <[k := f x]> d | None => d end !! k
  = match f <$> o with Some v => Some v | None => d !! k end.
Proof. destruct o; [by rewrite lookup_insert_eq|done]. Qed.

Lemma lookup_decided_insert_eq (P : Prop) `{!Decision P} (v : JVal) (k : string)
    (d : gmap string JVal) :
  (if bool_decide P then <[k := v]> d else d) !! k
  = if bool_decide P then Some v else d !! k.
Proof. case_bool_decide; [by rewrite lookup_insert_eq|done]. Qed.

(** Read a key of the mapping a round has built: through the later
    assignments, at its own assignment, and through the earlier ones. *)
Ltac read_key :=
  read_through;
  first [ rewrite lookup_insert_eq
        | rewrite lookup_guarded_insert_eq; read_through
        | rewrite lookup_decided_insert_eq; read_through
        | idtac ].

(** The same for a key that no round assigns. *)
Ltac read_other_key :=
  repeat first [ rewrite lookup_insert_ne by by apply not_eq_sym
               | rewrite lookup_guarded_insert_ne by by apply not_eq_sym
               | rewrite lookup_tested_insert_ne by by apply not_eq_sym ].

Lemma assigned_set_firstaired (myShow : Show) (s e : Z) (v : option string)
    (cur : TVEpisode) (k : string) :
  assigned (set_firstaired myShow s e v) cur k = assigned myShow cur k.
Proof.
  unfold assigned, remote_writer, remote_director.
  rewrite lookup_ep_set_firstaired.
  destruct (lookup_ep myShow (season cur) (episode cur)) as [myEp|]; [|done].
  by destruct (bool_decide (s = season cur ∧ e = episode cur)).
Qed.

Lemma last_assigned_set_firstaired (myShow : Show) (s e : Z) (v : option string)
    (k : string) (acc : option JVal) (eps : list TVEpisode) :
  last_assigned (set_firstaired myShow s e v) k acc eps
  = last_assigned myShow k acc eps.
Proof.
  revert acc. induction eps as [|cur rest IH]; intros acc; [done|].
  simpl. by rewrite IH, assigned_set_firstaired.
Qed.

Section Keys.
Context {FS : Type} `{!FileSystem FS}.

(** A round that goes through leaves, at each key, what it assigns
    there, or else what was there. *)
Lemma _ep_data_body_assigns (ep_obj cur : TVEpisode) (myShow : Show)
    (data : gmap string JVal) (myEp : Episode) (w : World FS) :
  lookup_ep myShow (season cur) (episode cur) = Some myEp →
  episodename myEp ≠ None →
  firstaired myEp ≠ None ∨ season ep_obj = 0 →
  ∃ myShow' data',
    _ep_data_body ep_obj cur myShow data w = (Ret (Normal (myShow', data')), w)
    ∧ ∀ k, data' !! k = match assigned myShow cur k with
                        | Some v => Some v
                        | None => data !! k
                        end.
Proof.
  intros Hsome Hname Hdate. unfold _ep_data_body, bind, try_except, ret.
  assert (remote_writer myShow cur = writer myEp) as Hwriter
    by (unfold remote_writer; by rewrite Hsome).
  assert (remote_director myShow cur = director myEp) as Hdirector
    by (unfold remote_director; by rewrite Hsome).
  rewrite Show_getitem_lookup_ep, Hsome. cbv beta iota.
  assert (bool_decide (episodename myEp = None) = false) as Hname'
    by by apply bool_decide_eq_false_2.
  destruct (firstaired myEp) as [aired|] eqn:Haired.
  - rewrite (bool_decide_eq_false_2 (Some aired = None)) by done.
    cbv beta iota. rewrite andb_false_l. cbv beta iota.
    rewrite Hname', Haired.
    rewrite (bool_decide_eq_false_2 (Some aired = None)) by done.
    cbn [orb]. do 2 eexists. split; [reflexivity|].
    intros k. unfold assigned. rewrite Hwriter, Hdirector.
    repeat (case_decide;
            [subst k; read_key;
             by destruct (bool_decide (airdate cur ≠ Py.date_fromordinal_1))|]).
    by read_other_key.
  - destruct Hdate as [|Hseason]; [done|].
    rewrite (bool_decide_eq_true_2 (None = None)) by done.
    rewrite (bool_decide_eq_true_2 (season ep_obj = 0)) by done.
    cbn [andb episodename firstaired]. rewrite Hname'.
    rewrite (bool_decide_eq_false_2 (Some _ = None)) by done.
    cbn [orb]. do 2 eexists. split; [reflexivity|].
    intros k. unfold assigned. rewrite Hwriter, Hdirector.
    cbn [seriesname actors genre set_firstaired writer director].
    repeat (case_decide;
            [subst k; read_key;
             by destruct (bool_decide (airdate cur ≠ Py.date_fromordinal_1))|]).
    by read_other_key.
Qed.

(** The loop, when every episode is usable, leaves at each key the last
    assignment made there. *)
Lemma _ep_data_loop_assigns (ep_obj : TVEpisode) (eps : list TVEpisode)
    (myShow : Show) (data : gmap string JVal) (w : World FS) :
  (∀ cur, cur ∈ eps → unusable ep_obj myShow cur = false) →
  ∃ data',
    _ep_data_loop ep_obj eps myShow data w = (Ret (PDict data'), w)
    ∧ ∀ k, data' !! k = last_assigned myShow k (data !! k) eps.
Proof.
  revert myShow data. induction eps as [|head rest IH]; intros myShow data Hgood.
  { by exists data. }
  simpl. unfold bind at 1.
  destruct (unusable_false ep_obj head myShow) as (myEp & Hsome & Hname & Hdate).
  { apply Hgood. by left. }
  destruct (_ep_data_body_complete ep_obj head myShow data myEp w
              Hsome Hname Hdate) as (data0 & Hbody & _).
  destruct (_ep_data_body_assigns ep_obj head myShow data myEp w
              Hsome Hname Hdate) as (myShow1 & data1 & Hbody' & Hkeys).
  rewrite Hbody' in Hbody. injection Hbody as -> ->. rewrite Hbody'.
  destruct (IH (if bool_decide (firstaired myEp = None)
                then set_firstaired myShow (season head) (episode head)
                       (Some (Py.str_date Py.date_fromordinal_1))
                else myShow) data0) as (data' & -> & Hkeys').
  { intros cur Hin.
    case_bool_decide as Haired; [|apply Hgood; by right].
    destruct Hdate as [|Hzero]; [done|].
    rewrite unusable_set_firstaired by done. apply Hgood. by right. }
  exists data'. split; [done|]. intros k. rewrite Hkeys', Hkeys.
  case_bool_decide; [by rewrite last_assigned_set_firstaired|done].
Qed.

(** X12. The mapping [_ep_data] returns is determined key by key: each
    key holds what the last round of the loop that assigns it has put
    there. The rounds assign the title, actor and genre of the remote
    show, the name, season, episode, description and air date of the
    episode object, and the writer and director of its remote record; a
    round assigns nothing for an attribute that is [None], nor for an
    air date equal to [date.fromordinal(1)]. No other key is present.
    Without related episodes the mapping is what the single round
    assigns. *)
Theorem returned_mapping_exact (ep_obj : TVEpisode) (w w1 : World FS)
    (d : gmap string JVal) :
  _ep_data ep_obj w = (Ret (PDict d), w1) →
  ∃ myShow,
    remote_reply w ep_obj = reply_show myShow
    ∧ (∀ k, d !! k = last_assigned myShow k None (eps_to_write ep_obj))
    ∧ (relatedEps ep_obj = [] → ∀ k, d !! k = assigned myShow ep_obj k).
Proof.
  intros Hdata.
  destruct (_ep_data_dict _ _ _ _ Hdata) as (myShow & Hreply & Hgood & _ & Hloop).
  destruct (_ep_data_loop_assigns ep_obj (eps_to_write ep_obj) myShow ∅ w1 Hgood)
    as (d' & Hloop' & Hkeys).
  rewrite Hloop' in Hloop. injection Hloop as ->.
  exists myShow. split_and!; [done| |].
  - intros k. by rewrite Hkeys, lookup_empty.
  - intros Hsingle k. rewrite Hkeys, lookup_empty.
    unfold eps_to_write. rewrite Hsingle. simpl.
    by destruct (assigned myShow ep_obj k).
Qed.

End Keys.

(** ** Lists split at ['|'] *)

Lemma split_not_nil (sep : ascii) (s : string) : Py.split sep s ≠ [].
Proof.
  destruct s as [|c r]; [done|]. simpl.
  case_bool_decide; [done|]. by destruct (Py.split sep r).
Qed.

Lemma concat_split (sep : ascii) (s : string) :
  String.concat (String sep "") (Py.split sep s) = s.
Proof.
  induction s as [|c r IH]; [done|]. simpl.
  pose proof (split_not_nil sep r) as Hne.
  case_bool_decide as Hc.
  - subst c. destruct (Py.split sep r) as [|piece pieces]; [done|].
    change (String.concat (String sep "") ("" :: piece :: pieces))
      with ("" +:+ String sep "" +:+ String.concat (String sep "") (piece :: pieces)).
    by rewrite IH.
  - destruct (Py.split sep r) as [|piece pieces]; [done|].
    destruct pieces as [|piece' pieces'].
    + simpl in *. by rewrite IH.
    + change (String.concat (String sep "") (String c piece :: piece' :: pieces'))
        with (String c piece +:+ String sep ""
              +:+ String.concat (String sep "") (piece' :: pieces')).
      change (String.concat (String sep "") (piece :: piece' :: pieces'))
        with (piece +:+ String sep ""
              +:+ String.concat (String sep "") (piece' :: pieces')) in IH.
      by rewrite string_app_cons, IH.
Qed.

Lemma split_no_char (sep : ascii) (s : string) :
  Forall (λ piece, no_char sep piece = true) (Py.split sep s).
Proof.
  induction s as [|c r IH]; [by repeat constructor|]. simpl.
  pose proof (split_not_nil sep r) as Hne.
  case_bool_decide as Hc.
  - by constructor.
  - destruct (Py.split sep r) as [|piece pieces]; [done|].
    apply Forall_cons in IH as [Hpiece Hpieces].
    constructor; [|done]. simpl. rewrite Hpiece.
    by rewrite bool_decide_eq_false_2.
Qed.

Lemma last_assigned_constant (myShow : Show) (k : string) (v : JVal)
    (acc : option JVal) (eps : list TVEpisode) :
  eps ≠ [] →
  (∀ cur, assigned myShow cur k = Some v) →
  last_assigned myShow k acc eps = Some v.
Proof.
  intros Hne Hall. revert acc.
  induction eps as [|cur rest IH]; [done|]. intros acc. simpl. rewrite Hall.
  destruct rest as [|next rest]; [done|]. by apply IH.
Qed.

Section Pipes.
Context {FS : Type} `{!FileSystem FS}.

(** X13. The actor and genre entries of a returned mapping are the
    remote strings cut at every ['|'] and nowhere else: joining the list
    with ['|'] gives the remote string back, and no element contains a
    ['|']. Empty elements are kept: a remote string that begins with
    ['|'] gives a list that begins with the empty string. *)
Theorem pipe_lists_round_trip (ep_obj : TVEpisode) (w w1 : World FS)
    (d : gmap string JVal) (myShow : Show) :
  _ep_data ep_obj w = (Ret (PDict d), w1) →
  remote_reply w ep_obj = reply_show myShow →
  (∀ a, actors myShow = Some a →
     ∃ l, d !! "actor" = Some (JList l)
          ∧ String.concat "|" l = a
          ∧ Forall (λ piece, no_char "|" piece = true) l
          ∧ (∀ rest, a = String "|" rest → head l = Some ""))
  ∧ (∀ g, genre myShow = Some g →
       ∃ l, d !! "genre" = Some (JList l)
            ∧ String.concat "|" l = g
            ∧ Forall (λ piece, no_char "|" piece = true) l
            ∧ (∀ rest, g = String "|" rest → head l = Some "")).
Proof.
  intros Hdata Hreply.
  destruct (_ep_data_dict _ _ _ _ Hdata) as (myShow' & Hreply' & Hgood & _ & Hloop).
  rewrite Hreply in Hreply'. injection Hreply' as <-.
  destruct (_ep_data_loop_assigns ep_obj (eps_to_write ep_obj) myShow ∅ w1 Hgood)
    as (d' & Hloop' & Hkeys).
  rewrite Hloop' in Hloop. injection Hloop as ->.
  assert (eps_to_write ep_obj ≠ []) as Hne by done.
  split.
  - intros a Ha. exists (Py.split "|" a). split_and!.
    + rewrite Hkeys. apply last_assigned_constant; [done|].
      intros cur. unfold assigned. rewrite Ha. done.
    + apply concat_split.
    + apply split_no_char.
    + by intros rest ->.
  - intros g Hg. exists (Py.split "|" g). split_and!.
    + rewrite Hkeys. apply last_assigned_constant; [done|].
      intros cur. unfold assigned. rewrite Hg. done.
    + apply concat_split.
    + apply split_no_char.
    + by intros rest ->.
Qed.

End Pipes.

(** ** The steps of [write_ep_file], in order *)

Section Order.
Context {FS : Type} `{!FileSystem FS} `{!JsonEncoder}.

(** One run of the [try] block against the list of its steps: a run
    that ends normally has made them all, and left the file system they
    give; a run that raises has made the steps up to the failing call,
    which is a [makedirs] for an [OSError], and [open], the write or
    [close] for an [IOError]. *)
Lemma write_ep_file_try_steps (data : PyVal) (p dir meta : string)
    (w w' : World FS) (r : Outcome unit) :
  write_ep_file_try data p dir meta w = (r, w') →
  ∃ t,
    w' = mkWorld (fs w') (TVDB_API_PARMS w) (tvdb w) (trace w ++ t)
    ∧ match r with
      | Ret _ =>
          t = try_block_steps data p dir meta (fs w)
          ∧ fs w' = written p (json_dumps_val data)
                      (created dir (created meta (fs w)))
      | Raise e =>
          t `prefix_of` try_block_steps data p dir meta (fs w)
          ∧ ((∃ msg, e = OSError msg)
             ∧ (last t = Some (EMakedirs meta) ∨ last t = Some (EMakedirs dir))
             ∧ count_events is_open_event t = 0%nat
             ∨ (∃ msg, e = IOError msg)
               ∧ (last t = Some (EOpen p "w")
                  ∨ last t = Some (EWrite p (json_dumps_val data))
                  ∨ last t = Some (EClose p)))
      end.
Proof.
  revert r w'. run_try_block; intros r w' Heq; simplify_eq;
    cbn [trace fs]; rewrite <- ?app_assoc; cbn [app];
    (eexists; split; [reflexivity|]);
    unfold try_block_steps, creation_steps, created, written;
    repeat match goal with
           | H : negb _ = true |- _ => apply negb_true_iff in H
           | H : negb _ = false |- _ => apply negb_false_iff in H
           end;
    repeat match goal with
           | H : isdir _ _ = _ |- _ => rewrite H
           | H : makedirs _ _ = _ |- _ => rewrite H; cbn [snd]
           | H : open_file _ _ _ = _ |- _ => rewrite H; cbn [snd]
           | H : write_file _ _ _ = _ |- _ => rewrite H; cbn [snd]
           | H : close_file _ _ = _ |- _ => rewrite H; cbn [snd]
           end;
    cbn [app creation_events writing_events].
  all: lazymatch goal with
       | |- _ = _ ∧ _ = _ => split; reflexivity
       | |- _ `prefix_of` _ ∧ _ =>
           split; [repeat apply prefix_cons; apply prefix_nil|]
       end.
  all: lazymatch goal with
       | |- (∃ msg, OSError _ = OSError msg) ∧ _ ∨ _ =>
           left; split_and!;
           [by eexists
           |first [left; reflexivity|right; reflexivity]
           |reflexivity]
       | |- (∃ msg, IOError _ = OSError msg) ∧ _ ∨ _ =>
           right; split;
           [by eexists
           |first [left; reflexivity
                  |right; left; reflexivity
                  |right; right; reflexivity]]
       end.
Qed.

(** C7. [write_ep_file] performs its steps in this order. First
    [_ep_data]: the remote lookup is the first event of the call, and
    [_ep_data] adds at most log lines to it and leaves the file system
    alone. When [_ep_data] raises, [write_ep_file] raises there; when it
    returns a falsy value, [write_ep_file] returns [False] there and
    then, with the file system of before the call and no file system
    call made. Otherwise the value is the mapping built from the remote
    show; the path is derived next, with at most a log line; and then
    come the calls of the [try] block: creation of the [@eaDir]
    directory if it is missing, creation of the directory of the episode
    if it is missing, [open], the write of the serialized mapping,
    [close] and [chmodAsParent]. When [write_ep_file] returns [True] all
    of them were made, in this order, and the file system is the one
    they leave; when it returns [False] or raises, they were made up to
    the call that failed. *)
Theorem write_ep_file_order (ep_obj : TVEpisode) (w : World FS) :
  let lookup := ETvdb (ltvdb_api_parms (TVDB_API_PARMS w) (lang (show ep_obj)))
                  (tvdbid (show ep_obj)) in
  ∃ t_log,
    Forall (λ e, ∃ msg level, e = ELog msg level) t_log
    ∧ (_ep_data ep_obj w).2 = record_events (lookup :: t_log) w
    ∧ match (_ep_data ep_obj w).1 with
      | Raise e =>
          write_ep_file ep_obj w = (Raise e, record_events (lookup :: t_log) w)
      | Ret data =>
          if truthy data then
            ∃ myShow d p t_path t_write,
              remote_reply w ep_obj = reply_show myShow
              ∧ data = PDict d
              ∧ (∀ k, d !! k = last_assigned myShow k None (eps_to_write ep_obj))
              ∧ t_log = []
              ∧ get_episode_file_path ep_obj (record_events [lookup] w)
                = (Ret (PathStr p), record_events (lookup :: t_path) w)
              ∧ Forall (λ e, ∃ msg level, e = ELog msg level) t_path
              ∧ trace (write_ep_file ep_obj w).2
                = (trace w ++ lookup :: t_path ++ t_write)%list
              ∧ count_events is_tvdb_event (t_path ++ t_write) = 0%nat
              ∧ let dir := os_path.dirname p in
                let meta := os_path.dirname dir in
                let steps := try_block_steps data p dir meta (fs w) in
                match (write_ep_file ep_obj w).1 with
                | Ret true =>
                    t_write = steps
                    ∧ fs (write_ep_file ep_obj w).2
                      = written p (json_dumps d) (created dir (created meta (fs w)))
                | Ret false =>
                    ∃ made msg,
                      t_write
                      = (made
                         ++ [ELog ("Unable to write file to " +:+ p
                                     +:+ " - are you sure the folder is writable? "
                                     +:+ msg) ERROR])%list
                      ∧ made `prefix_of` steps
                      ∧ (last made = Some (EOpen p "w")
                         ∨ last made = Some (EWrite p (json_dumps d))
                         ∨ last made = Some (EClose p))
                | Raise e =>
                    (∃ msg, e = OSError msg)
                    ∧ t_write `prefix_of` steps
                    ∧ (last t_write = Some (EMakedirs meta)
                       ∨ last t_write = Some (EMakedirs dir))
                end
          else
            write_ep_file ep_obj w = (Ret false, record_events (lookup :: t_log) w)
            ∧ fs (write_ep_file ep_obj w).2 = fs w
            ∧ count_events fs_event (lookup :: t_log) = 0%nat
      end.
Proof.
  intros lookup.
  destruct (write_ep_file_cases ep_obj w) as (t1 & Ht1 & Hcases).
  cbv zeta in Hcases. fold lookup in Hcases.
  exists t1. split; [done|].
  destruct Hcases as [(e & Hdata & Hwrite)
                     |[(data & Hdata & Hfalsy & Hwrite)
                      |(data & t2 & Hdata & Htruthy & Ht2 & Hpath & Hwrite)]];
    rewrite Hdata; cbn [fst snd]; (split; [done|]).
  - done.
  - rewrite Hfalsy, Hwrite. split_and!; [done..|].
    apply count_events_none. constructor; [done|by apply log_is_no_fs_event].
  - rewrite Htruthy. destruct data as [| |d]; [done..|].
    destruct (_ep_data_dict _ _ _ _ Hdata) as (myShow & Hreply & Hgood & Hw1 & Hloop).
    fold lookup in Hw1, Hloop.
    assert (t1 = []) as ->.
    { apply (f_equal trace) in Hw1. unfold record_events in Hw1.
      cbn [trace] in Hw1. apply app_inv_head in Hw1. by injection Hw1. }
    destruct (_ep_data_loop_assigns ep_obj (eps_to_write ep_obj) myShow ∅
                (record_events [lookup] w) Hgood) as (d' & Hloop' & Hkeys).
    rewrite Hloop' in Hloop. injection Hloop as ->.
    rewrite record_events_app in Hpath, Hwrite. cbn [app] in Hpath, Hwrite.
    remember (metadata_path ep_obj w) as p eqn:Hp. clear Hp.
    destruct (write_ep_file_try_run (PDict d) p (os_path.dirname p)
                (os_path.dirname (os_path.dirname p))
                (record_events (lookup :: t2) w))
      as (f' & t3' & Hw3' & Htvdb & _).
    destruct (write_ep_file_try (PDict d) p (os_path.dirname p)
                (os_path.dirname (os_path.dirname p))
                (record_events (lookup :: t2) w)) as [r w3] eqn:Htry.
    destruct (write_ep_file_try_steps _ _ _ _ _ _ _ Htry) as (t3 & Hw3 & Hshape).
    cbn [snd] in Hw3'. rewrite Hw3 in Hw3'.
    cbn [record_events trace fs TVDB_API_PARMS tvdb] in Hw3, Hw3', Hshape.
    assert (t3' = t3) as ->.
    { apply (f_equal trace) in Hw3'. cbn [trace] in Hw3'.
      by apply app_inv_head in Hw3'. }
    clear Hw3'.
    assert (count_events is_tvdb_event (t2 ++ t3) = 0%nat) as Hnone.
    { apply count_events_none, Forall_app_2; [by apply log_is_no_tvdb_event|done]. }
    apply (f_equal trace) in Hw3 as Hw3t. cbn [trace] in Hw3t.
    exists myShow, d, p, t2.
    destruct r as [[]|e]; [|destruct e];
      rewrite Hwrite; cbn [after_try fst snd record_events trace fs];
      rewrite Hw3t, <- ?app_assoc; cbn [app];
      destruct Hshape as [Hsteps Hend].
    all: try (destruct Hend as [([msg' Hexn] & Hlast & _)|([msg' Hexn] & Hlast)];
              simplify_eq).
    + exists t3. split_and!; done.
    + eexists (t3 ++ [_])%list. split_and!; try done.
      { by rewrite app_assoc, count_events_app, Hnone. }
      by exists t3, msg'.
    + exists t3. split_and!; try done. by eexists.
Qed.

End Order.

(** ** What a result tells the caller *)

Section Results.
Context {FS : Type} `{!FileSystem FS} `{!JsonEncoder}.

(** X11. What a value returned by [_ep_data] tells its caller. A
    mapping is never empty, and is returned only for a show that was
    found and whose episodes to write all have a remote record with a
    name, and with an air date unless [ep_obj] is a special; nothing was
    logged then, and the remote lookup is all that has happened. [None]
    is returned only for a show that was found and one of whose episodes
    to write has no such record. [False] is returned exactly when the
    remote database could not be reached. *)
Theorem ep_data_result_tells_cause (ep_obj : TVEpisode) (w : World FS) :
  (∀ d, (_ep_data ep_obj w).1 = Ret (PDict d) →
     d ≠ ∅
     ∧ (_ep_data ep_obj w).2
       = record_events
           [ETvdb (ltvdb_api_parms (TVDB_API_PARMS w) (lang (show ep_obj)))
              (tvdbid (show ep_obj))] w
     ∧ ∃ myShow,
         remote_reply w ep_obj = reply_show myShow
         ∧ ∀ cur, cur ∈ eps_to_write ep_obj →
             unusable ep_obj myShow cur = false)
  ∧ ((_ep_data ep_obj w).1 = Ret PNone →
     ∃ myShow cur,
       remote_reply w ep_obj = reply_show myShow
       ∧ cur ∈ eps_to_write ep_obj
       ∧ unusable ep_obj myShow cur = true)
  ∧ ((_ep_data ep_obj w).1 = Ret PFalse
     ↔ ∃ msg, remote_reply w ep_obj = reply_error msg).
Proof.
  split_and!.
  - intros d Hret.
    destruct (_ep_data ep_obj w) as [r w1] eqn:Hdata. cbn [fst snd] in *. subst r.
    destruct (_ep_data_dict _ _ _ _ Hdata) as (myShow & Hreply & Hgood & Hw1 & Hloop).
    split_and!; [|done|by exists myShow].
    destruct (_ep_data_loop_usable ep_obj (eps_to_write ep_obj) myShow ∅ w1 Hgood)
      as (d' & Hloop' & _ & Hlast & _).
    rewrite Hloop' in Hloop. injection Hloop as ->.
    destruct (last_eps_to_write ep_obj) as [cur Hcur].
    destruct (Hlast cur Hcur) as (Htag & _).
    intros ->. by rewrite lookup_empty in Htag.
  - pose proof (_ep_data_by_reply ep_obj w) as Hdata. cbv zeta in Hdata.
    unfold remote_reply. rewrite Hdata.
    destruct (tvdb w _ _) as [myShow|msg|msg]; [|done..].
    intros Hret. exists myShow.
    destruct (decide (Exists (λ cur, unusable ep_obj myShow cur = true)
                        (eps_to_write ep_obj))) as [Hbad|Hgood].
    + apply Exists_exists in Hbad as (cur & Hin & Hbad). by exists cur.
    + destruct (_ep_data_loop_usable ep_obj (eps_to_write ep_obj) myShow ∅
                  (record_events
                     [ETvdb (ltvdb_api_parms (TVDB_API_PARMS w) (lang (show ep_obj)))
                        (tvdbid (show ep_obj))] w))
        as (d & Hloop & _).
      { intros cur Hin. apply not_true_is_false. intros Hbad.
        apply Hgood, Exists_exists. by exists cur. }
      by rewrite Hloop in Hret.
  - pose proof (_ep_data_by_reply ep_obj w) as Hdata. cbv zeta in Hdata.
    unfold remote_reply. rewrite Hdata.
    destruct (tvdb w _ _) as [myShow|msg|msg].
    + destruct (_ep_data_loop_returns ep_obj (eps_to_write ep_obj) myShow ∅
                  (record_events
                     [ETvdb (ltvdb_api_parms (TVDB_API_PARMS w) (lang (show ep_obj)))
                        (tvdbid (show ep_obj))] w))
        as (v & t & Hloop & _ & [->|(d & -> & _)]);
        rewrite Hloop; cbn [fst]; (split; [done|]); intros (msg' & Hbad); done.
    + cbn [fst]. split; [done|]. intros (msg' & Hbad). done.
    + cbn [fst]. split; [by exists msg|done].
Qed.

(** X8. What an exception out of [write_ep_file] tells its caller.
    [ShowNotFoundException] is raised exactly when the remote database
    does not know the show, and the remote lookup is then all that has
    happened. An [OSError] is raised only after the show was found and
    [_ep_data] returned a mapping: it comes from an [os.makedirs], which
    is then the last call made, and no file has been opened. *)
Theorem write_ep_file_exceptions (ep_obj : TVEpisode) (w : World FS) :
  (∀ msg,
     (write_ep_file ep_obj w).1 = Raise (ShowNotFoundException msg)
     ↔ remote_reply w ep_obj = reply_shownotfound msg)
  ∧ (∀ msg,
       remote_reply w ep_obj = reply_shownotfound msg →
       (write_ep_file ep_obj w).2
       = record_events
           [ETvdb (ltvdb_api_parms (TVDB_API_PARMS w) (lang (show ep_obj)))
              (tvdbid (show ep_obj))] w)
  ∧ (∀ msg,
       (write_ep_file ep_obj w).1 = Raise (OSError msg) →
       ∃ myShow d t q,
         remote_reply w ep_obj = reply_show myShow
         ∧ (_ep_data ep_obj w).1 = Ret (PDict d)
         ∧ trace (write_ep_file ep_obj w).2 = (trace w ++ t)%list
         ∧ last t = Some (EMakedirs q)
         ∧ count_events is_open_event t = 0%nat).
Proof.
  assert (∀ msg, remote_reply w ep_obj = reply_shownotfound msg →
            write_ep_file ep_obj w
            = (Raise (ShowNotFoundException msg),
               record_events
                 [ETvdb (ltvdb_api_parms (TVDB_API_PARMS w) (lang (show ep_obj)))
                    (tvdbid (show ep_obj))] w)) as Hnotfound.
  { intros msg Hreply. unfold remote_reply in Hreply.
    pose proof (_ep_data_by_reply ep_obj w) as Hdata. cbv zeta in Hdata.
    rewrite Hreply in Hdata. by apply write_ep_file_raises. }
  assert (∀ e, (write_ep_file ep_obj w).1 = Raise e →
            (∃ msg, e = ShowNotFoundException msg
                    ∧ remote_reply w ep_obj = reply_shownotfound msg)
            ∨ (∃ msg myShow d t q,
                 e = OSError msg
                 ∧ remote_reply w ep_obj = reply_show myShow
                 ∧ (_ep_data ep_obj w).1 = Ret (PDict d)
                 ∧ trace (write_ep_file ep_obj w).2 = (trace w ++ t)%list
                 ∧ last t = Some (EMakedirs q)
                 ∧ count_events is_open_event t = 0%nat)) as Hraised.
  { intros e Hraise.
    destruct (write_ep_file_cases ep_obj w) as (t1 & Ht1 & Hcases).
    cbv zeta in Hcases.
    destruct Hcases as [(e' & Hdata & Hwrite)
                       |[(data & Hdata & Hfalsy & Hwrite)
                        |(data & t2 & Hdata & Htruthy & Ht2 & Hpath & Hwrite)]].
    - rewrite Hwrite in Hraise. injection Hraise as ->. left.
      pose proof (_ep_data_by_reply ep_obj w) as Hreply. cbv zeta in Hreply.
      rewrite Hdata in Hreply. unfold remote_reply.
      destruct (tvdb w _ _) as [myShow|msg|msg].
      + destruct (_ep_data_loop_returns ep_obj (eps_to_write ep_obj) myShow ∅
                    (record_events
                       [ETvdb (ltvdb_api_parms (TVDB_API_PARMS w)
                                 (lang (show ep_obj)))
                          (tvdbid (show ep_obj))] w))
          as (v & t & Hloop & _).
        by rewrite Hloop in Hreply.
      + injection Hreply as -> _. by exists msg.
      + done.
    - by rewrite Hwrite in Hraise.
    - right. destruct data as [| |d]; [done..|].
      destruct (_ep_data_dict _ _ _ _ Hdata) as (myShow & Hreply & _).
      destruct (write_ep_file_try (PDict d) (metadata_path ep_obj w)
                  (os_path.dirname (metadata_path ep_obj w))
                  (os_path.dirname (os_path.dirname (metadata_path ep_obj w)))
                  (record_events t2
                     (record_events
                        (ETvdb (ltvdb_api_parms (TVDB_API_PARMS w)
                                  (lang (show ep_obj)))
                           (tvdbid (show ep_obj)) :: t1) w)))
        as [r w3] eqn:Htry.
      destruct (write_ep_file_try_steps _ _ _ _ _ _ _ Htry) as (t3 & Hw3 & Hshape).
      rewrite Hwrite in Hraise |- *. rewrite Hdata.
      destruct r as [[]|e3]; [done|]. destruct Hshape as [_ Hend].
      destruct Hend as [([msg ->] & Hlast & Hopen)|([msg ->] & _)]; [|done].
      cbn [after_try fst snd] in Hraise |- *. injection Hraise as <-.
      apply (f_equal trace) in Hw3. cbn [trace record_events] in Hw3.
      rewrite <- !app_assoc in Hw3. cbn [app] in Hw3.
      assert (t3 ≠ []) as Hne by (intros ->; by destruct Hlast).
      exists msg, myShow, d, (ETvdb (ltvdb_api_parms (TVDB_API_PARMS w)
                                       (lang (show ep_obj)))
                                (tvdbid (show ep_obj)) :: t1 ++ t2 ++ t3)%list.
      destruct Hlast as [Hlast|Hlast];
        [exists (os_path.dirname (os_path.dirname (metadata_path ep_obj w)))
        |exists (os_path.dirname (metadata_path ep_obj w))];
        (split_and!; [done..| |]).
      all: try (rewrite app_comm_cons, !app_assoc, last_app, Hlast; done).
      all: rewrite app_comm_cons, !app_assoc, !count_events_app, Hopen;
        rewrite (count_events_none _ t2)
          by (eapply Forall_impl; [exact Ht2|]; by intros ? (? & ? & ->));
        rewrite !Nat.add_0_r;
        apply count_events_none; constructor; [done|];
        eapply Forall_impl; [exact Ht1|]; by intros ? (? & ? & ->). }
  split_and!.
  - intros msg. split.
    + intros Hraise.
      destruct (Hraised _ Hraise) as [(msg' & [= ->] & Hreply)|(? & ? & ? & ? & ? & ? & _)];
        done.
    + intros Hreply. by rewrite (Hnotfound _ Hreply).
  - intros msg Hreply. by rewrite (Hnotfound _ Hreply).
  - intros msg Hraise.
    destruct (Hraised _ Hraise) as [(? & ? & _)|(msg' & myShow & d & t & q & [= <-] & Hrest)];
      [done|].
    by exists myShow, d, t, q.
Qed.

End Results.

(** ** The properties on the sample library *)

Import Sample.

Example join_relative :
  os_path.join "/tv/S1" ["@eaDir"; "ep.mkv"] = "/tv/S1/@eaDir/ep.mkv".
Proof. reflexivity. Qed.

Example join_absolute_component : os_path.join "/a/b" ["/c"; "d"] = "/c/d".
Proof. reflexivity. Qed.

Example dirname_plain : os_path.dirname "/volume1/tv/ep.mkv" = "/volume1/tv".
Proof. reflexivity. Qed.

Example dirname_root : os_path.dirname "/ep.mkv" = "/".
Proof. reflexivity. Qed.

Example dirname_no_slash : os_path.dirname "ep.mkv" = "".
Proof. reflexivity. Qed.

Example dirname_double_slash : os_path.dirname "/a//ep.mkv" = "/a".
Proof. reflexivity. Qed.

Example basename_plain : os_path.basename "/volume1/tv/ep.mkv" = "ep.mkv".
Proof. reflexivity. Qed.

Example split_pipe : Py.split "|" "a|b||c" = ["a"; "b"; ""; "c"].
Proof. reflexivity. Qed.

Example split_empty : Py.split "|" "" = [""].
Proof. reflexivity. Qed.

Example str_int_negative : Py.str_int (-12) = "-12".
Proof. reflexivity. Qed.

Example pilot_is_written :
  (write_ep_file pilot (world disk)).1 = Ret true
  ∧ MemFS.files (fs (write_ep_file pilot (world disk)).2)
      !! "/tv/S1/@eaDir/ep.mkv/SYNOVIDEO_TV_EPISODE"
    = Some (json_dumps (dict_of (_ep_data pilot (world disk)).1)).
Proof. split; by vm_compute. Qed.

Lemma get_episode_file_path_of_location_witness :
  isfile (location pilot) (fs (world disk)) = true
  ∧ (get_episode_file_path pilot (world disk)).1
    = Ret (PathStr "/tv/S1/@eaDir/ep.mkv/SYNOVIDEO_TV_EPISODE")
  ∧ (get_episode_file_path fourth (world locked_disk)).1
    = (get_episode_file_path pilot (world disk)).1.
Proof.
  assert (isfile (location pilot) (fs (world disk)) = true) as Hfile
    by reflexivity.
  split; [done|].
  destruct (get_episode_file_path_of_location pilot (world disk) Hfile)
    as [Hpath Hsame].
  split; [by rewrite Hpath|].
  by apply Hsame.
Defined.

Lemma get_episode_thumb_path_of_location_witness :
  isfile (location pilot) (fs (world disk)) = true
  ∧ (get_episode_thumb_path pilot (world disk)).1
    = Ret (PathStr
             "/tv/S1/@eaDir/ep.mkv/SYNOVIDEO_VIDEO_SCREENSHOT.jpg").
Proof.
  assert (isfile (location pilot) (fs (world disk)) = true) as Hfile
    by reflexivity.
  split; [done|].
  destruct (get_episode_thumb_path_of_location pilot (world disk) Hfile)
    as [Hpath _].
  by rewrite Hpath.
Defined.

Lemma missing_location_sentinels_witness :
  isfile (location lost) (fs (world disk)) = false
  ∧ (get_episode_thumb_path lost (world disk)).1 = Ret PathNone
  ∧ (get_episode_file_path lost (world disk)).1 = Ret (PathStr "").
Proof.
  assert (isfile (location lost) (fs (world disk)) = false) as Hgone
    by reflexivity.
  split; [done|].
  destruct (missing_location_sentinels lost (world disk) Hgone)
    as (Hthumb & Hfile & _).
  by rewrite Hthumb, Hfile.
Defined.

Lemma missing_required_field_skips_witness :
  remote_reply (world disk) second = reply_show remote_show
  ∧ lookup_ep remote_show (season second) (episode second) = Some unnamed
  ∧ episodename unnamed = None
  ∧ (_ep_data second (world disk)).1 = Ret PNone
  ∧ (write_ep_file second (world disk)).1 = Ret false
  ∧ fs (write_ep_file second (world disk)).2 = disk.
Proof.
  assert (remote_reply (world disk) second = reply_show remote_show) as Hreply
    by reflexivity.
  assert (second ∈ eps_to_write second) as Hin by left.
  assert (lookup_ep remote_show (season second) (episode second) = Some unnamed)
    as Hsome by reflexivity.
  destruct (missing_required_field_skips second second remote_show unnamed
              (world disk) Hreply Hin Hsome (or_introl (eq_refl None)))
    as (Hdata & Hwrite & Hfs & _).
  by split_and!.
Defined.

(** C1 as stated fails for a show the remote database does not know:
    [_ep_data] and [write_ep_file] raise [ShowNotFoundException] instead
    of returning [False], [None] or an empty value. *)
Lemma show_not_found_is_raised :
  remote_reply (world disk) unknown = reply_shownotfound "7"
  ∧ (_ep_data unknown (world disk)).1 = Raise (ShowNotFoundException "7")
  ∧ (write_ep_file unknown (world disk)).1 = Raise (ShowNotFoundException "7").
Proof. split_and!; by vm_compute. Qed.

Lemma failure_signals_witness :
  (_ep_data second (world disk)).1 = Ret PNone
  ∧ (write_ep_file second (world disk)).1 = Ret false
  ∧ (_ep_data ninth (world disk)).1 = Ret PNone
  ∧ (write_ep_file ninth (world disk)).1 = Ret false
  ∧ (write_ep_file pilot (world locked_disk)).1 = Ret false
  ∧ (_ep_data unknown (world disk)).1 = Raise (ShowNotFoundException "7")
  ∧ (write_ep_file unknown (world disk)).1 = Raise (ShowNotFoundException "7").
Proof.
  destruct (failure_signals second (world disk)) as (Hfields & _).
  destruct (failure_signals ninth (world disk)) as (_ & Hfound & _).
  destruct (failure_signals pilot (world locked_disk)) as (_ & _ & Hio & _).
  destruct (failure_signals unknown (world disk)) as (_ & _ & _ & Hshow).
  assert (remote_reply (world disk) second = reply_show remote_show) as Hreply
    by reflexivity.
  assert (second ∈ eps_to_write second) as Hin by left.
  assert (lookup_ep remote_show (season second) (episode second) = Some unnamed)
    as Hsome by reflexivity.
  destruct (Hfields remote_show second unnamed Hreply Hin Hsome
              (or_introl (eq_refl None))) as [Ha Hb].
  assert (remote_reply (world disk) ninth = reply_show remote_show) as Hreply'
    by reflexivity.
  assert (ninth ∈ eps_to_write ninth) as Hin' by left.
  assert (lookup_ep remote_show (season ninth) (episode ninth) = None)
    as Hnone by reflexivity.
  destruct (Hfound remote_show ninth Hreply' Hin' Hnone) as [Hc Hd].
  assert (_ep_data pilot (world locked_disk)
          = (Ret (PDict (dict_of (_ep_data pilot (world locked_disk)).1)),
             (_ep_data pilot (world locked_disk)).2)) as Hdata
    by by vm_compute.
  assert (truthy (PDict (dict_of (_ep_data pilot (world locked_disk)).1)) = true)
    as Htruthy by by vm_compute.
  assert (get_episode_file_path pilot (_ep_data pilot (world locked_disk)).2
          = (Ret (PathStr
                    "/tv/S1/@eaDir/ep.mkv/SYNOVIDEO_TV_EPISODE"),
             (_ep_data pilot (world locked_disk)).2)) as Hpath
    by by vm_compute.
  pose proof (Hio _ _ _ _
                "[Errno 13] cannot open: /tv/S1/@eaDir/ep.mkv/SYNOVIDEO_TV_EPISODE"
                (record_events
                   [ELog "Writing episode metadata file to /tv/S1/@eaDir/ep.mkv/SYNOVIDEO_TV_EPISODE"
                      MESSAGE;
                    EOpen "/tv/S1/@eaDir/ep.mkv/SYNOVIDEO_TV_EPISODE"
                      "w"]
                   (_ep_data pilot (world locked_disk)).2)
                Hdata Htruthy Hpath) as He.
  assert (remote_reply (world disk) unknown = reply_shownotfound "7") as Hunknown
    by reflexivity.
  destruct (Hshow "7" Hunknown) as [Hf Hg].
  split_and!; [exact Ha|exact Hb|exact Hc|exact Hd| |exact Hf|exact Hg].
  apply He. by vm_compute.
Defined.

Lemma unreachable_or_unwritable_is_logged_witness :
  remote_reply (world disk) offline = reply_error "timed out"
  ∧ (_ep_data offline (world disk)).1 = Ret PFalse
  ∧ write_ep_file offline (world disk)
    = (Ret false,
       record_events
         [ETvdb parms 8;
          ELog "Unable to connect to TVDB while creating meta files - skipping - timed out"
            ERROR] (world disk))
  ∧ (write_ep_file pilot (world locked_disk)).1 = Ret false
  ∧ last (trace (write_ep_file pilot (world locked_disk)).2)
    = Some (ELog "Unable to write file to /tv/S1/@eaDir/ep.mkv/SYNOVIDEO_TV_EPISODE - are you sure the folder is writable? [Errno 13] cannot open: /tv/S1/@eaDir/ep.mkv/SYNOVIDEO_TV_EPISODE"
              ERROR).
Proof.
  destruct (unreachable_or_unwritable_is_logged offline (world disk))
    as (Hremote & _).
  destruct (unreachable_or_unwritable_is_logged pilot (world locked_disk))
    as (_ & Hio).
  assert (remote_reply (world disk) offline = reply_error "timed out") as Hreply
    by reflexivity.
  destruct (Hremote "timed out" Hreply) as [Hdata Hwrite].
  assert (_ep_data pilot (world locked_disk)
          = (Ret (PDict (dict_of (_ep_data pilot (world locked_disk)).1)),
             (_ep_data pilot (world locked_disk)).2)) as Hdata'
    by by vm_compute.
  assert (truthy (PDict (dict_of (_ep_data pilot (world locked_disk)).1)) = true)
    as Htruthy by by vm_compute.
  assert (get_episode_file_path pilot (_ep_data pilot (world locked_disk)).2
          = (Ret (PathStr
                    "/tv/S1/@eaDir/ep.mkv/SYNOVIDEO_TV_EPISODE"),
             (_ep_data pilot (world locked_disk)).2)) as Hpath
    by by vm_compute.
  pose proof (Hio _ _ _ _
                "[Errno 13] cannot open: /tv/S1/@eaDir/ep.mkv/SYNOVIDEO_TV_EPISODE"
                (record_events
                   [ELog "Writing episode metadata file to /tv/S1/@eaDir/ep.mkv/SYNOVIDEO_TV_EPISODE"
                      MESSAGE;
                    EOpen "/tv/S1/@eaDir/ep.mkv/SYNOVIDEO_TV_EPISODE"
                      "w"]
                   (_ep_data pilot (world locked_disk)).2)
                Hdata' Htruthy Hpath) as He.
  destruct He as [He _]; [by vm_compute|].
  split_and!; [done|by rewrite Hdata|done|by rewrite He|by rewrite He].
Defined.

(** C6 as stated fails for the summary: it is not assembled from the
    remote lookup result. Two episode objects for the same episode of the
    same show, hence with the same remote answer, get the summaries their
    own descriptions give. *)
Lemma summary_comes_from_episode_object :
  show retold = show pilot
  ∧ season retold = season pilot
  ∧ episode retold = episode pilot
  ∧ remote_reply (world disk) retold = remote_reply (world disk) pilot
  ∧ (∃ d, (_ep_data pilot (world disk)).1 = Ret (PDict d)
          ∧ d !! "summary" = JStr <$> description pilot
          ∧ d !! "summary" = Some (JStr "It begins."))
  ∧ (∃ d, (_ep_data retold (world disk)).1 = Ret (PDict d)
          ∧ d !! "summary" = JStr <$> description retold
          ∧ d !! "summary" = Some (JStr "Told anew.")).
Proof.
  split_and!; [done..| |].
  - exists (dict_of (_ep_data pilot (world disk)).1). split_and!; by vm_compute.
  - exists (dict_of (_ep_data retold (world disk)).1). split_and!; by vm_compute.
Qed.

Lemma metadata_mapping_written_verbatim_witness :
  (write_ep_file pilot (world disk)).1 = Ret true
  ∧ dom (dict_of (_ep_data pilot (world disk)).1) ⊆ metadata_keys
  ∧ (∃ cur, cur ∈ eps_to_write pilot
            ∧ (from_remote remote_show cur "writer" (JList ["Ann"; "Bob"])
               ∨ from_episode_object cur "writer" (JList ["Ann"; "Bob"])))
  ∧ ∃ before,
      trace (write_ep_file pilot (world disk)).2
      = (trace (_ep_data pilot (world disk)).2 ++ before
         ++ [ELog "Writing episode metadata file to /tv/S1/@eaDir/ep.mkv/SYNOVIDEO_TV_EPISODE"
               MESSAGE;
             EOpen "/tv/S1/@eaDir/ep.mkv/SYNOVIDEO_TV_EPISODE" "w";
             EWrite "/tv/S1/@eaDir/ep.mkv/SYNOVIDEO_TV_EPISODE"
               (json_dumps (dict_of (_ep_data pilot (world disk)).1));
             EClose "/tv/S1/@eaDir/ep.mkv/SYNOVIDEO_TV_EPISODE";
             EChmodAsParent "/tv/S1/@eaDir/ep.mkv/SYNOVIDEO_TV_EPISODE"])%list.
Proof.
  destruct (metadata_mapping_written_verbatim pilot (world disk))
    as [Hkeys Hwritten].
  assert (_ep_data pilot (world disk)
          = (Ret (PDict (dict_of (_ep_data pilot (world disk)).1)),
             (_ep_data pilot (world disk)).2)) as Hdata
    by by vm_compute.
  assert (write_ep_file pilot (world disk)
          = (Ret true, (write_ep_file pilot (world disk)).2)) as Hwrite
    by by vm_compute.
  destruct (Hkeys _ _ Hdata) as (myShow & Hreply & Hdom & _ & Hfrom).
  assert (myShow = remote_show) as -> by (injection Hreply as <-; reflexivity).
  assert (dict_of (_ep_data pilot (world disk)).1 !! "writer"
          = Some (JList ["Ann"; "Bob"])) as Hwriter
    by by vm_compute.
  destruct (Hwritten _ Hwrite)
    as (d & w1 & p & w2 & before & f0 & f1 & f2 & f3 & Hdata' & Hpath & Htrace & _).
  split_and!; [by rewrite Hwrite|exact Hdom|exact (Hfrom _ _ Hwriter)|].
  rewrite Hdata in Hdata'. injection Hdata' as <- <-.
  assert (get_episode_file_path pilot (_ep_data pilot (world disk)).2
          = (Ret (PathStr "/tv/S1/@eaDir/ep.mkv/SYNOVIDEO_TV_EPISODE"),
             (_ep_data pilot (world disk)).2)) as Hpath'
    by by vm_compute.
  rewrite Hpath' in Hpath. injection Hpath as <- <-.
  exists before. exact Htrace.
Defined.

Lemma special_air_date_substituted_witness :
  lookup_ep remote_show (season special) (episode special) = Some undated
  ∧ firstaired undated = None
  ∧ (∃ data',
       (_ep_data_body special special remote_show ∅ (world disk)).1
       = Ret (Normal (set_firstaired remote_show 0 1 (Some "0001-01-01"), data')))
  ∧ (_ep_data_body third special remote_show ∅ (world disk)).1
    = Ret (Returned PNone)
  ∧ (∃ d, (_ep_data special_and_third (world disk)).1 = Ret (PDict d))
  ∧ (_ep_data third_and_special (world disk)).1 = Ret PNone.
Proof.
  assert (lookup_ep remote_show 0 1 = Some undated) as Hspecial by reflexivity.
  assert (lookup_ep remote_show 1 3 = Some undated) as Hthird by reflexivity.
  assert (episodename undated ≠ None) as Hname by done.
  assert (remote_reply (world disk) special_and_third = reply_show remote_show)
    as Hreply by reflexivity.
  destruct (special_air_date_substituted (FS:=MemFS.t) special) as [Hround _].
  destruct (special_air_date_substituted (FS:=MemFS.t) third) as [Hround' _].
  destruct (special_air_date_substituted (FS:=MemFS.t) special_and_third)
    as [_ Hrun].
  destruct (special_air_date_substituted (FS:=MemFS.t) third_and_special)
    as [_ Hrun'].
  pose proof (Hround special remote_show ∅ undated (world disk) Hspecial
                (eq_refl None) Hname) as (data' & Hbody & _).
  pose proof (Hround' special remote_show ∅ undated (world disk) Hspecial
                (eq_refl None) Hname) as Hbody'.
  assert (∀ cur : TVEpisode,
            cur ∈ [special_and_third; third] ∨ cur ∈ [third_and_special; special] →
            ∃ myEp, lookup_ep remote_show (season cur) (episode cur) = Some myEp
                    ∧ episodename myEp ≠ None) as Hnamed.
  { intros cur [Hin|Hin];
      apply elem_of_cons in Hin as [->|Hin];
      try apply list_elem_of_singleton in Hin as ->;
      exists undated; (split; [reflexivity|discriminate]). }
  pose proof (Hrun remote_show (world disk) Hreply
                (λ cur Hin, Hnamed cur (or_introl Hin))
                (ex_intro _ third
                   (ex_intro _ undated
                      (conj (list_elem_of_further _ _ _ (list_elem_of_here _ _))
                         (conj Hthird (eq_refl None)))))) as Hkept.
  pose proof (Hrun' remote_show (world disk) Hreply
                (λ cur Hin, Hnamed cur (or_intror Hin))
                (ex_intro _ special
                   (ex_intro _ undated
                      (conj (list_elem_of_further _ _ _ (list_elem_of_here _ _))
                         (conj Hspecial (eq_refl None)))))) as Hskipped.
  split_and!; [exact Hspecial|done| |by rewrite Hbody'|exact Hkept|exact Hskipped].
  exists data'. by rewrite Hbody.
Defined.

(** C10 as stated fails for the summary: in a file holding the pilot
    (which has a description) and then the fourth episode (which has
    none), the mapping returned has the pilot's description as its
    summary, although the fourth episode was processed last. *)
Lemma summary_of_earlier_episode_survives :
  relatedEps two_parter = [fourth]
  ∧ last (eps_to_write two_parter) = Some fourth
  ∧ description fourth = None
  ∧ description two_parter = Some "It begins."
  ∧ ∃ d, (_ep_data two_parter (world disk)).1 = Ret (PDict d)
         ∧ d !! "summary" = Some (JStr "It begins.")
         ∧ d !! "summary" ≠ JStr <$> description fourth
         ∧ d !! "tagline" = Some (JStr "Fourth").
Proof.
  split_and!; [done..|].
  exists (dict_of (_ep_data two_parter (world disk)).1).
  split_and!; by vm_compute.
Qed.

Lemma multi_episode_last_wins_witness :
  (_ep_data two_parter (world disk)).1
  = Ret (PDict (dict_of (_ep_data two_parter (world disk)).1))
  ∧ last (eps_to_write two_parter) = Some fourth
  ∧ dict_of (_ep_data two_parter (world disk)).1 !! "tagline"
    = Some (JStr "Fourth")
  ∧ dict_of (_ep_data two_parter (world disk)).1 !! "episode"
    = Some (JStr "4")
  ∧ dict_of (_ep_data two_parter (world disk)).1 !! "summary"
    = Some (JStr "It begins.").
Proof.
  assert ((_ep_data two_parter (world disk)).1
          = Ret (PDict (dict_of (_ep_data two_parter (world disk)).1))) as Hdata
    by by vm_compute.
  assert (last (eps_to_write two_parter) = Some fourth) as Hlast by reflexivity.
  destruct (multi_episode_last_wins two_parter (world disk) _ fourth Hdata Hlast)
    as (Htag & _ & Hepisode & Hsummary).
  split_and!; [done|done|by rewrite Htag|by rewrite Hepisode|by rewrite Hsummary].
Defined.

(** ** The further properties on the sample library *)

Import MoreSamples.

Lemma metadata_file_layout_witness :
  isfile (location pilot) (fs (world disk)) = true
  ∧ os_path.basename (location pilot) ≠ ""
  ∧ ∃ p, (get_episode_file_path pilot (world disk)).1 = Ret (PathStr p)
         ∧ os_path.dirname p = "/tv/S1/@eaDir/ep.mkv"
         ∧ os_path.dirname (os_path.dirname p) = "/tv/S1/@eaDir"
         ∧ os_path.dirname (os_path.dirname (os_path.dirname p)) = "/tv/S1".
Proof.
  assert (isfile (location pilot) (fs (world disk)) = true) as Hfile
    by reflexivity.
  assert (os_path.basename (location pilot) ≠ "") as Hbase by done.
  destruct (metadata_file_layout pilot (world disk) Hfile Hbase)
    as (p & Hpath & _ & Hdir & _ & Hmeta & _ & Hroot).
  split_and!; [done..|].
  exists p. split_and!; [by rewrite Hpath|by rewrite Hdir|by rewrite Hmeta
                        |by rewrite Hroot].
Defined.

Lemma thumb_beside_metadata_witness :
  isfile (location pilot) (fs (world disk)) = true
  ∧ os_path.basename (location pilot) ≠ ""
  ∧ ∃ thumb meta,
      (get_episode_thumb_path pilot (world disk)).1 = Ret (PathStr thumb)
      ∧ (get_episode_file_path pilot (world disk)).1 = Ret (PathStr meta)
      ∧ os_path.dirname thumb = os_path.dirname meta
      ∧ thumb ≠ meta.
Proof.
  assert (isfile (location pilot) (fs (world disk)) = true) as Hfile
    by reflexivity.
  assert (os_path.basename (location pilot) ≠ "") as Hbase by done.
  destruct (thumb_beside_metadata pilot (world disk) Hfile Hbase)
    as (thumb & meta & Hthumb & Hmeta & Hdir & _ & Hne).
  split_and!; [done..|].
  exists thumb, meta. split_and!; [by rewrite Hthumb|by rewrite Hmeta|done|done].
Defined.


Lemma write_protocol_witness :
  (write_ep_file_try small meta_file episode_dir eaDir (world disk)).1 = Ret tt
  ∧ trace (write_ep_file_try small meta_file episode_dir eaDir (world disk)).2
    = (creation_events eaDir ++ creation_events episode_dir
       ++ writing_events meta_file (json_dumps_val small))%list.
Proof.
  assert (write_ep_file_try small meta_file episode_dir eaDir (world disk)
          = (Ret tt,
             (write_ep_file_try small meta_file episode_dir eaDir (world disk)).2))
    as Hrun by by vm_compute.
  pose proof (write_protocol small meta_file episode_dir eaDir (world disk) _ Hrun)
    as Htrace.
  split; [by rewrite Hrun|]. rewrite Htrace. by vm_compute.
Defined.


Lemma ioerror_stops_at_failing_call_witness :
  (write_ep_file_try small meta_file episode_dir eaDir (world locked_disk)).1
  = Raise (IOError "[Errno 13] cannot open: /tv/S1/@eaDir/ep.mkv/SYNOVIDEO_TV_EPISODE")
  ∧ ∃ t, trace (write_ep_file_try small meta_file episode_dir eaDir
                  (world locked_disk)).2 = t
         ∧ last t = Some (EOpen meta_file "w")
         ∧ count_events is_write_event t = 0%nat.
Proof.
  assert (write_ep_file_try small meta_file episode_dir eaDir (world locked_disk)
          = (Raise (IOError "[Errno 13] cannot open: /tv/S1/@eaDir/ep.mkv/SYNOVIDEO_TV_EPISODE"),
             (write_ep_file_try small meta_file episode_dir eaDir
                (world locked_disk)).2))
    as Hrun by by vm_compute.
  destruct (ioerror_stops_at_failing_call small meta_file episode_dir eaDir _
              (world locked_disk) _ Hrun) as (t & Htrace & Hcases).
  split; [by rewrite Hrun|].
  exists t. split; [by rewrite Htrace|].
  assert (last t = Some (EOpen meta_file "w")) as Hlast.
  { apply (app_inv_head (trace (world locked_disk))) in Htrace.
    rewrite <- Htrace. by vm_compute. }
  split; [done|].
  destruct Hcases as [(_ & Hwrite & _)|[[Hlast' _]|Hlast']]; [done|..];
    by rewrite Hlast in Hlast'.
Defined.

Lemma makedirs_error_propagates_witness :
  isdir eaDir sealed_disk = false
  ∧ (makedirs eaDir sealed_disk).1
    = Some "[Errno 13] cannot create directory: /tv/S1/@eaDir"
  ∧ (write_ep_file pilot (world sealed_disk)).1
    = Raise (OSError "[Errno 13] cannot create directory: /tv/S1/@eaDir")
  ∧ MemFS.files (fs (write_ep_file pilot (world sealed_disk)).2)
    = MemFS.files sealed_disk.
Proof.
  assert (_ep_data pilot (world sealed_disk)
          = (Ret (PDict (dict_of (_ep_data pilot (world sealed_disk)).1)),
             (_ep_data pilot (world sealed_disk)).2)) as Hdata
    by by vm_compute.
  assert (truthy (PDict (dict_of (_ep_data pilot (world sealed_disk)).1)) = true)
    as Htruthy by by vm_compute.
  assert (get_episode_file_path pilot (_ep_data pilot (world sealed_disk)).2
          = (Ret (PathStr meta_file), (_ep_data pilot (world sealed_disk)).2))
    as Hpath by by vm_compute.
  assert (isdir (os_path.dirname (os_path.dirname meta_file))
            (fs (_ep_data pilot (world sealed_disk)).2) = false) as Hisdir
    by by vm_compute.
  assert (makedirs (os_path.dirname (os_path.dirname meta_file))
            (fs (_ep_data pilot (world sealed_disk)).2)
          = (Some "[Errno 13] cannot create directory: /tv/S1/@eaDir", sealed_disk))
    as Hmake by by vm_compute.
  pose proof (makedirs_error_propagates pilot _ _ _ _ _ _ _
                Hdata Htruthy Hpath Hisdir Hmake) as Hwrite.
  split_and!; [by vm_compute|by vm_compute|by rewrite Hwrite|by rewrite Hwrite].
Defined.

Lemma missing_location_is_not_noticed_witness :
  isfile (location lost) (fs (world disk)) = false
  ∧ (∃ d, (_ep_data lost (world disk)).1 = Ret (PDict d))
  ∧ write_ep_file lost (world disk)
    = after_try ""
        (write_ep_file_try (PDict (dict_of (_ep_data lost (world disk)).1))
           "" "" ""
           (record_events
              [ELog "Episode location doesn't exist: /tv/S1/gone.mkv" DEBUG]
              (_ep_data lost (world disk)).2)).
Proof.
  assert (isfile (location lost) (fs (world disk)) = false) as Hgone
    by reflexivity.
  assert (_ep_data lost (world disk)
          = (Ret (PDict (dict_of (_ep_data lost (world disk)).1)),
             (_ep_data lost (world disk)).2)) as Hdata
    by by vm_compute.
  assert (truthy (PDict (dict_of (_ep_data lost (world disk)).1)) = true)
    as Htruthy by by vm_compute.
  pose proof (missing_location_is_not_noticed lost (world disk) _ _
                Hgone Hdata Htruthy) as Hwrite.
  split_and!; [done| |exact Hwrite].
  eexists. by rewrite Hdata.
Defined.

Lemma returned_mapping_exact_witness :
  (∃ d, (_ep_data two_parter (world disk)).1 = Ret (PDict d)
        ∧ d !! "summary" = last_assigned remote_show "summary" None [two_parter; fourth]
        ∧ d !! "summary" = Some (JStr "It begins.")
        ∧ d !! "poster" = None)
  ∧ relatedEps pilot = []
  ∧ ∃ d, (_ep_data pilot (world disk)).1 = Ret (PDict d)
         ∧ d !! "director" = assigned remote_show pilot "director"
         ∧ d !! "director" = Some (JList ["Cy"]).
Proof.
  assert (_ep_data two_parter (world disk)
          = (Ret (PDict (dict_of (_ep_data two_parter (world disk)).1)),
             (_ep_data two_parter (world disk)).2)) as Hdata
    by by vm_compute.
  assert (_ep_data pilot (world disk)
          = (Ret (PDict (dict_of (_ep_data pilot (world disk)).1)),
             (_ep_data pilot (world disk)).2)) as Hdata'
    by by vm_compute.
  destruct (returned_mapping_exact two_parter (world disk) _ _ Hdata)
    as (myShow & Hreply & Hkeys & _).
  assert (myShow = remote_show) as -> by (injection Hreply as <-; reflexivity).
  destruct (returned_mapping_exact pilot (world disk) _ _ Hdata')
    as (myShow' & Hreply' & _ & Hsingle).
  assert (myShow' = remote_show) as -> by (injection Hreply' as <-; reflexivity).
  split_and!; [|done|].
  - eexists. split; [by rewrite Hdata|].
    split_and!; [exact (Hkeys "summary")|by rewrite (Hkeys "summary")
                |by rewrite (Hkeys "poster")].
  - eexists. split; [by rewrite Hdata'|].
    split; [exact (Hsingle eq_refl "director")
           |by rewrite (Hsingle eq_refl "director")].
Defined.

Lemma pipe_lists_round_trip_witness :
  remote_reply (world disk) pilot = reply_show remote_show
  ∧ actors remote_show = Some "|Dee|Eli|"
  ∧ ∃ d l, (_ep_data pilot (world disk)).1 = Ret (PDict d)
           ∧ d !! "actor" = Some (JList l)
           ∧ String.concat "|" l = "|Dee|Eli|"
           ∧ head l = Some "".
Proof.
  assert (_ep_data pilot (world disk)
          = (Ret (PDict (dict_of (_ep_data pilot (world disk)).1)),
             (_ep_data pilot (world disk)).2)) as Hdata
    by by vm_compute.
  assert (remote_reply (world disk) pilot = reply_show remote_show) as Hreply
    by reflexivity.
  destruct (pipe_lists_round_trip pilot (world disk) _ _ remote_show Hdata Hreply)
    as [Hactors _].
  destruct (Hactors "|Dee|Eli|" eq_refl) as (l & Hlist & Hjoin & _ & Hhead).
  split_and!; [done..|].
  eexists _, l. split_and!; [by rewrite Hdata|exact Hlist|exact Hjoin
                            |exact (Hhead _ eq_refl)].
Defined.

Lemma write_ep_file_order_witness :
  (write_ep_file pilot (world disk)).1 = Ret true
  ∧ trace (write_ep_file pilot (world disk)).2
    = (ETvdb (<["language" := "de"]> parms) 42
       :: creation_events eaDir
       ++ creation_events episode_dir
       ++ writing_events meta_file
            (json_dumps (dict_of (_ep_data pilot (world disk)).1)))%list
  ∧ fs (write_ep_file pilot (world disk)).2
    = written meta_file (json_dumps (dict_of (_ep_data pilot (world disk)).1))
        (created episode_dir (created eaDir disk)).
Proof.
  pose proof (write_ep_file_order pilot (world disk)) as Horder.
  cbv zeta in Horder. destruct Horder as (t_log & _ & _ & Horder).
  assert ((_ep_data pilot (world disk)).1
          = Ret (PDict (dict_of (_ep_data pilot (world disk)).1))) as Hdata
    by by vm_compute.
  assert (truthy (PDict (dict_of (_ep_data pilot (world disk)).1)) = true)
    as Htruthy by by vm_compute.
  assert ((write_ep_file pilot (world disk)).1 = Ret true) as Hres
    by by vm_compute.
  rewrite Hdata, Htruthy in Horder.
  destruct Horder as (myShow & d & p & t_path & t_write & _ & Hd & _ & _
                      & Hpath & _ & Htrace & _ & Hsteps).
  injection Hd as <-. rewrite Hres in Hsteps. destruct Hsteps as [Hall Hfs].
  assert (p = meta_file ∧ t_path = []) as [-> ->].
  { apply (f_equal (λ r, (match r.1 with
                          | Ret (PathStr s) => s
                          | _ => ""
                          end, trace r.2))) in Hpath.
    vm_compute in Hpath. injection Hpath as <- <-. split; reflexivity. }
  split_and!; [exact Hres| |].
  - rewrite Htrace, Hall. vm_compute. reflexivity.
  - rewrite Hfs. vm_compute. reflexivity.
Defined.

Lemma write_ep_file_exceptions_witness :
  (write_ep_file unknown (world disk)).1 = Raise (ShowNotFoundException "7")
  ∧ trace (write_ep_file unknown (world disk)).2 = [ETvdb parms 7]
  ∧ (write_ep_file pilot (world sealed_disk)).1
    = Raise (OSError "[Errno 13] cannot create directory: /tv/S1/@eaDir")
  ∧ ∃ t q, trace (write_ep_file pilot (world sealed_disk)).2 = t
           ∧ last t = Some (EMakedirs q)
           ∧ count_events is_open_event t = 0%nat.
Proof.
  destruct (write_ep_file_exceptions unknown (world disk))
    as (Hnotfound & Hworld & _).
  destruct (write_ep_file_exceptions pilot (world sealed_disk))
    as (_ & _ & Hoserror).
  assert (remote_reply (world disk) unknown = reply_shownotfound "7") as Hreply
    by reflexivity.
  assert ((write_ep_file pilot (world sealed_disk)).1
          = Raise (OSError "[Errno 13] cannot create directory: /tv/S1/@eaDir"))
    as Hraise by by vm_compute.
  destruct (Hoserror _ Hraise) as (myShow & d & t & q & _ & _ & Htrace & Hlast & Hopen).
  split_and!.
  - apply Hnotfound. exact Hreply.
  - rewrite (Hworld _ Hreply). reflexivity.
  - exact Hraise.
  - exists t, q. split_and!; [exact Htrace|exact Hlast|exact Hopen].
Defined.

Lemma ep_data_result_tells_cause_witness :
  (∃ d, (_ep_data two_parter (world disk)).1 = Ret (PDict d) ∧ d ≠ ∅)
  ∧ (_ep_data ninth (world disk)).1 = Ret PNone
  ∧ (∃ cur, cur ∈ eps_to_write ninth ∧ unusable ninth remote_show cur = true)
  ∧ (_ep_data offline (world disk)).1 = Ret PFalse.
Proof.
  destruct (ep_data_result_tells_cause two_parter (world disk))
    as (Hdict & _ & _).
  destruct (ep_data_result_tells_cause ninth (world disk)) as (_ & Hnone & _).
  destruct (ep_data_result_tells_cause offline (world disk))
    as (_ & _ & Hfalse).
  assert ((_ep_data two_parter (world disk)).1
          = Ret (PDict (dict_of (_ep_data two_parter (world disk)).1)))
    as Hmapping by by vm_compute.
  destruct (Hdict _ Hmapping) as (Hfilled & _).
  assert ((_ep_data ninth (world disk)).1 = Ret PNone) as Hnothing
    by by vm_compute.
  destruct (Hnone Hnothing) as (myShow & cur & Hreply & Hin & Hbad).
  assert (remote_reply (world disk) ninth = reply_show remote_show) as Hshow
    by reflexivity.
  rewrite Hshow in Hreply. injection Hreply as <-.
  split_and!.
  - eexists. split; [exact Hmapping|exact Hfilled].
  - exact Hnothing.
  - exists cur. split; [exact Hin|exact Hbad].
  - apply Hfalse. exists "timed out". reflexivity.
Defined.
